(** * Pill splitter: a shallow embedding of [src/App.tsx]

    The React component [App] keeps seven pieces of state and reacts to
    five kinds of mouse events.  Each handler is embedded as a function
    from the state it closes over to the state after React has applied the
    updates it queued; events are processed one at a time, each on the
    state left by the previous one.

    Modelling choices:
    - [clientX], [clientY] and every coordinate derived from them are
      integers ([Z]); the handlers use only [+], [-], [Math.abs],
      [Math.min] and comparisons.
    - [crypto.randomUUID()] is a generator that never repeats itself: the
      [n]-th identifier it hands out is [Uuid n], and the number of
      identifiers handed out so far is part of the state ([uuidNext]).
    - [Math.random()] is an oracle carried by the event that consumes it.
    - [tempPill.color] on a [null] draft is a [TypeError]:
      [handleMouseUp] returns [option State], [None] being the uncaught
      error.  No reachable state raises it ([reachable_step_total]). *)

From Stdlib Require Import ZArith List String Ascii Bool Lia.
Import ListNotations.
Open Scope Z_scope.

(** ** Data *)

Inductive Id : Type :=
| TempPillId            (* the literal 'temp-pill' *)
| Uuid (n : N).         (* the n-th result of crypto.randomUUID() *)

Definition Id_eqb (a b : Id) : bool :=
  match a, b with
  | TempPillId, TempPillId => true
  | Uuid n, Uuid m => N.eqb n m
  | _, _ => false
  end.

Record Pill : Type := mkPill {
  id : Id;
  x : Z;
  y : Z;
  width : Z;
  height : Z;
  color : string;
  borderRadius : Z
}.

(** The object spreads [{ ...p, x: v }], [{ ...p, y: v }] and
    [{ ...p, x: v, y: w }]. *)
Definition with_x (p : Pill) (v : Z) : Pill :=
  mkPill (id p) v (y p) (width p) (height p) (color p) (borderRadius p).

Definition with_y (p : Pill) (v : Z) : Pill :=
  mkPill (id p) (x p) v (width p) (height p) (color p) (borderRadius p).

Definition with_xy (p : Pill) (v w : Z) : Pill :=
  mkPill (id p) v w (width p) (height p) (color p) (borderRadius p).

Record MouseEvent : Type := mkMouseEvent {
  clientX : Z;
  clientY : Z;
  button : Z
}.

Record Point : Type := mkPoint { pt_x : Z; pt_y : Z }.

Record SplitLines : Type := mkSplitLines {
  sl_x : Z;
  sl_y : Z;
  sl_visible : bool
}.

Record State : Type := mkState {
  pills : list Pill;
  splitLines : SplitLines;
  drawing : bool;
  drawStart : Point;
  tempPill : option Pill;
  draggingPillId : option Id;
  dragOffset : Point;
  uuidNext : N
}.

Definition initialState : State :=
  mkState [] (mkSplitLines 0 0 false) false (mkPoint 0 0) None None
          (mkPoint 0 0) 0%N.

(** ** Constants *)

Definition MIN_DRAW_SIZE : Z := 40.
Definition MIN_SPLIT_SIZE : Z := 20.
Definition BORDER_RADIUS : Z := 20.

(** ** [getRandomColor] *)

Definition letters : string := "0123456789ABCDEF".

(** [letters[k]]; an index past the end reads [undefined], which [+=]
    appends as the word itself. *)
Definition letterAt (k : nat) : string :=
  match String.get k letters with
  | Some c => String c EmptyString
  | None => "undefined"
  end.

(** [rnd i] is [Math.floor(Math.random() * 16)] of the [i]-th iteration. *)
Fixpoint colorLoop (rnd : nat -> nat) (i n : nat) (acc : string) : string :=
  match n with
  | O => acc
  | S n' => colorLoop rnd (S i) n' (acc ++ letterAt (rnd i))
  end.

Definition getRandomColor (rnd : nat -> nat) : string :=
  colorLoop rnd 0 6 "#".

(** ** The array under construction in [handleClick]

    The updater passed to [setPills] pushes onto a local array [newPills]
    and draws identifiers as it goes; both are threaded through a small
    state monad. *)

Record Builder : Type := mkBuilder {
  newPills : list Pill;
  nextUuid : N
}.

Definition M (A : Type) : Type := Builder -> A * Builder.

Definition ret {A : Type} (a : A) : M A := fun b => (a, b).

Definition bind {A B : Type} (m : M A) (k : A -> M B) : M B :=
  fun b => let (a, b') := m b in k a b'.

Notation "v <- m ;; k" := (bind m (fun v => k))
  (at level 61, m at next level, right associativity).
Notation "m ;; k" := (bind m (fun _ => k))
  (at level 61, right associativity).

Definition push (p : Pill) : M unit :=
  fun b => (tt, mkBuilder (newPills b ++ [p]) (nextUuid b)).

Definition randomUUID : M Id :=
  fun b => (Uuid (nextUuid b), mkBuilder (newPills b) (N.succ (nextUuid b))).

(** The two range tests of [handleClick], lines 139 and 175. *)
Definition verticalSplitTest (splitY : Z) (p : Pill) : bool :=
  (splitY >? y p) && (splitY <? y p + height p).

Definition horizontalSplitTest (splitX : Z) (p : Pill) : bool :=
  (splitX >? x p) && (splitX <? x p + width p).

(** The body of [prevPills.forEach((p) => { ... })]. *)
Definition splitPill (splitX splitY : Z) (p : Pill) : M unit :=
  splitPerformed <-
    (if verticalSplitTest splitY p then
       let topPartHeight := splitY - y p in
       let bottomPartHeight := height p - topPartHeight in
       if (topPartHeight <? MIN_SPLIT_SIZE)
          || (bottomPartHeight <? MIN_SPLIT_SIZE) then
         let moveAmount := 10 in
         (if topPartHeight <? MIN_SPLIT_SIZE
          then push (with_y p (y p - moveAmount))
          else push (with_y p (y p + moveAmount))) ;;
         ret true
       else
         i1 <- randomUUID ;;
         push (mkPill i1 (x p) (y p) (width p) topPartHeight
                      (color p) BORDER_RADIUS) ;;
         i2 <- randomUUID ;;
         push (mkPill i2 (x p) splitY (width p) bottomPartHeight
                      (color p) BORDER_RADIUS) ;;
         ret true
     else ret false) ;;
  splitPerformed <-
    (if horizontalSplitTest splitX p && negb splitPerformed then
       let leftPartWidth := splitX - x p in
       let rightPartWidth := width p - leftPartWidth in
       if (leftPartWidth <? MIN_SPLIT_SIZE)
          || (rightPartWidth <? MIN_SPLIT_SIZE) then
         let moveAmount := 10 in
         (if leftPartWidth <? MIN_SPLIT_SIZE
          then push (with_x p (x p - moveAmount))
          else push (with_x p (x p + moveAmount))) ;;
         ret true
       else
         i1 <- randomUUID ;;
         push (mkPill i1 (x p) (y p) leftPartWidth (height p)
                      (color p) BORDER_RADIUS) ;;
         i2 <- randomUUID ;;
         push (mkPill i2 splitX (y p) rightPartWidth (height p)
                      (color p) BORDER_RADIUS) ;;
         ret true
     else ret splitPerformed) ;;
  if negb splitPerformed then push p else ret tt.

(** [prevPills.forEach(...)] starting from an empty [newPills]. *)
Definition forEach (f : Pill -> M unit) (l : list Pill) (b : Builder)
  : Builder :=
  fold_left (fun acc p => snd (f p acc)) l b.

Definition applySplit (prevPills : list Pill) (splitX splitY : Z) (n : N)
  : Builder :=
  forEach (splitPill splitX splitY) prevPills (mkBuilder [] n).

(** ** Handlers *)

Definition handleMouseMove (e : MouseEvent) (s : State) : State :=
  let tempPill' :=
    match tempPill s with
    | Some t =>
        if drawing s then
          let currentX := clientX e in
          let currentY := clientY e in
          let newWidth := Z.abs (currentX - pt_x (drawStart s)) in
          let newHeight := Z.abs (currentY - pt_y (drawStart s)) in
          let newX := Z.min currentX (pt_x (drawStart s)) in
          let newY := Z.min currentY (pt_y (drawStart s)) in
          Some (mkPill (id t) newX newY newWidth newHeight
                       (color t) (borderRadius t))
        else Some t
    | None => None
    end in
  let pills' :=
    match draggingPillId s with
    | Some d =>
        map (fun p =>
               if Id_eqb (id p) d
               then with_xy p (clientX e - pt_x (dragOffset s))
                              (clientY e - pt_y (dragOffset s))
               else p)
            (pills s)
    | None => pills s
    end in
  mkState pills' (mkSplitLines (clientX e) (clientY e) true) (drawing s)
          (drawStart s) tempPill' (draggingPillId s) (dragOffset s)
          (uuidNext s).

Definition clickedOnPill (e : MouseEvent) (l : list Pill) : bool :=
  existsb (fun p =>
             (clientX e >=? x p) && (clientX e <=? x p + width p)
             && (clientY e >=? y p) && (clientY e <=? y p + height p)) l.

Definition handleMouseDown (e : MouseEvent) (rnd : nat -> nat) (s : State)
  : State :=
  if negb (clickedOnPill e (pills s)) && (button e =? 0) then
    mkState (pills s) (splitLines s) true
            (mkPoint (clientX e) (clientY e))
            (Some (mkPill TempPillId (clientX e) (clientY e) 0 0
                          (getRandomColor rnd) BORDER_RADIUS))
            (draggingPillId s) (dragOffset s) (uuidNext s)
  else s.

Definition handleMouseUp (e : MouseEvent) (s : State) : option State :=
  if drawing s then
    let finalWidth := Z.abs (clientX e - pt_x (drawStart s)) in
    let finalHeight := Z.abs (clientY e - pt_y (drawStart s)) in
    let finalX := Z.min (clientX e) (pt_x (drawStart s)) in
    let finalY := Z.min (clientY e) (pt_y (drawStart s)) in
    if (finalWidth >=? MIN_DRAW_SIZE) && (finalHeight >=? MIN_DRAW_SIZE) then
      match tempPill s with
      | Some t =>
          Some (mkState
                  (pills s ++ [mkPill (Uuid (uuidNext s)) finalX finalY
                                      finalWidth finalHeight (color t)
                                      BORDER_RADIUS])
                  (splitLines s) false (drawStart s) None None
                  (dragOffset s) (N.succ (uuidNext s)))
      | None => None
      end
    else
      Some (mkState (pills s) (splitLines s) false (drawStart s) None None
                    (dragOffset s) (uuidNext s))
  else
    Some (mkState (pills s) (splitLines s) (drawing s) (drawStart s)
                  (tempPill s) None (dragOffset s) (uuidNext s)).

Definition isSome {A : Type} (o : option A) : bool :=
  match o with Some _ => true | None => false end.

Definition handleClick (e : MouseEvent) (s : State) : State :=
  if drawing s || isSome (draggingPillId s) then s
  else
    let splitX := clientX e in
    let splitY := clientY e in
    let b := applySplit (pills s) splitX splitY (uuidNext s) in
    mkState (newPills b) (splitLines s) (drawing s) (drawStart s)
            (tempPill s) (draggingPillId s) (dragOffset s) (nextUuid b).

Definition handleMouseLeave (s : State) : State :=
  mkState (pills s)
          (mkSplitLines (sl_x (splitLines s)) (sl_y (splitLines s)) false)
          (drawing s) (drawStart s) (tempPill s) (draggingPillId s)
          (dragOffset s) (uuidNext s).

(** [onMouseDownPill] of the [Pill] rendered from [p]; it stops the
    propagation, so the container's [handleMouseDown] does not run. *)
Definition onMouseDownPill (p : Pill) (e : MouseEvent) (s : State) : State :=
  mkState (pills s) (splitLines s) (drawing s) (drawStart s) (tempPill s)
          (Some (id p))
          (mkPoint (clientX e - x p) (clientY e - y p))
          (uuidNext s).

(** ** The event loop *)

Inductive Event : Type :=
| MouseMove (e : MouseEvent)
| MouseDown (e : MouseEvent) (rnd : nat -> nat)   (* on the container *)
| MouseDownPill (k : nat) (e : MouseEvent)        (* on the k-th Pill *)
| MouseUp (e : MouseEvent)
| Click (e : MouseEvent)
| MouseLeave.

Definition step (s : State) (ev : Event) : option State :=
  match ev with
  | MouseMove e => Some (handleMouseMove e s)
  | MouseDown e rnd => Some (handleMouseDown e rnd s)
  | MouseDownPill k e =>
      match nth_error (pills s) k with
      | Some p => Some (onMouseDownPill p e s)
      | None => Some s
      end
  | MouseUp e => handleMouseUp e s
  | Click e => Some (handleClick e s)
  | MouseLeave => Some (handleMouseLeave s)
  end.

Fixpoint run (s : State) (evs : list Event) : option State :=
  match evs with
  | [] => Some s
  | ev :: evs' =>
      match step s ev with
      | Some s' => run s' evs'
      | None => None
      end
  end.

Inductive reachable : State -> Prop :=
| reach_init : reachable initialState
| reach_step s ev s' : reachable s -> step s ev = Some s' -> reachable s'.

(** ** Predicates on states

    [idBelow n i]: if [i] came from the generator, it was one of the
    first [n] it handed out. *)

Definition idBelow (n : N) (i : Id) : Prop :=
  forall k, i = Uuid k -> (k < n)%N.

Definition idsWf (n : N) (l : list Pill) : Prop :=
  NoDup (map id l) /\ Forall (fun p => idBelow n (id p)) l.

(** Both dimensions are at least [MIN_SPLIT_SIZE]. *)
Definition sized (p : Pill) : Prop :=
  MIN_SPLIT_SIZE <= width p /\ MIN_SPLIT_SIZE <= height p.

Definition isIdle (s : State) : Prop :=
  drawing s = false /\ draggingPillId s = None.

(** A run of pointer moves. *)
Definition moveAll (ms : list MouseEvent) (s : State) : State :=
  fold_left (fun st m => handleMouseMove m st) ms s.

(** The callback of [prevPills.map] in [handleMouseMove], for a drag of
    the pills identified by [d] to position [(vx, vy)]. *)
Definition dragTo (d : Id) (vx vy : Z) (l : list Pill) : list Pill :=
  map (fun p => if Id_eqb (id p) d then with_xy p vx vy else p) l.

(** ** Two sessions

    [drawTwo]: a first pill is drawn from (100,100) to (200,200) and the
    click that follows the release is delivered; a second one is drawn
    from (300,200) to (360,150).  [dragOne]: the first pill is drawn, then
    grabbed at (150,140) and released at (250,240). *)

Definition zeros : nat -> nat := fun _ => O.

Definition drawFirst : list Event :=
  [ MouseDown (mkMouseEvent 100 100 0) zeros;
    MouseMove (mkMouseEvent 200 200 0);
    MouseUp (mkMouseEvent 200 200 0);
    Click (mkMouseEvent 200 200 0) ].

Definition drawTwo : list Event :=
  drawFirst ++
  [ MouseDown (mkMouseEvent 300 200 0) zeros;
    MouseMove (mkMouseEvent 360 150 0);
    MouseUp (mkMouseEvent 360 150 0) ].

Definition dragOne : list Event :=
  drawFirst ++
  [ MouseDownPill 0 (mkMouseEvent 150 140 0);
    MouseMove (mkMouseEvent 250 240 0);
    MouseUp (mkMouseEvent 250 240 0) ].

(** What holds of every state the component reaches: identifiers in the
    store are pairwise distinct and were all handed out by the generator
    already, and while drawing there is a draft. *)
Definition stateWf (s : State) : Prop :=
  idsWf (uuidNext s) (pills s)
  /\ (drawing s = true -> tempPill s <> None).

(** ** Measures *)

Definition area (p : Pill) : Z := width p * height p.

Definition totalArea (l : list Pill) : Z :=
  fold_right (fun p a => area p + a) 0 l.

(** * Properties *)

(** ** Identifiers *)

Lemma Id_eqb_eq (a b : Id) : Id_eqb a b = true <-> a = b.
Proof.
  destruct a as [|n], b as [|m]; simpl; split; intros H;
    try reflexivity; try discriminate.
  - apply N.eqb_eq in H. now subst.
  - injection H as ->. apply N.eqb_refl.
Qed.

Lemma Id_eqb_refl (a : Id) : Id_eqb a a = true.
Proof. now apply Id_eqb_eq. Qed.

Lemma Id_eqb_neq (a b : Id) : Id_eqb a b = false <-> a <> b.
Proof.
  split.
  - intros H E. apply Id_eqb_eq in E. congruence.
  - intros H. destruct (Id_eqb a b) eqn:E; [|reflexivity].
    apply Id_eqb_eq in E. contradiction.
Qed.

(** ** The range tests *)

Lemma verticalSplitTest_spec (sy : Z) (p : Pill) :
  verticalSplitTest sy p = true <-> y p < sy < y p + height p.
Proof.
  unfold verticalSplitTest. rewrite andb_true_iff, Z.gtb_ltb, !Z.ltb_lt.
  tauto.
Qed.

Lemma horizontalSplitTest_spec (sx : Z) (p : Pill) :
  horizontalSplitTest sx p = true <-> x p < sx < x p + width p.
Proof.
  unfold horizontalSplitTest. rewrite andb_true_iff, Z.gtb_ltb, !Z.ltb_lt.
  tauto.
Qed.

Lemma verticalSplitTest_false (sy : Z) (p : Pill) :
  verticalSplitTest sy p = false <-> ~ (y p < sy < y p + height p).
Proof.
  rewrite <- verticalSplitTest_spec. destruct (verticalSplitTest sy p);
    split; congruence.
Qed.

Lemma horizontalSplitTest_false (sx : Z) (p : Pill) :
  horizontalSplitTest sx p = false <-> ~ (x p < sx < x p + width p).
Proof.
  rewrite <- horizontalSplitTest_spec. destruct (horizontalSplitTest sx p);
    split; congruence.
Qed.

(** ** One iteration of the [forEach] in [handleClick]

    One lemma per path through the body: what is pushed and how many
    identifiers are drawn. *)

Ltac run_body :=
  unfold splitPill, bind, push, randomUUID, ret; cbn [fst snd negb andb orb].

Ltac set_ltb e b :=
  let E := fresh "E" in
  assert (E : e = b) by
    (first [ apply Z.ltb_lt | apply Z.ltb_ge ]; unfold MIN_SPLIT_SIZE in *; lia);
  rewrite ?E; clear E.

Section Body.
Variables (splitX splitY : Z) (p : Pill) (b : Builder).

Lemma splitPill_untouched :
  verticalSplitTest splitY p = false ->
  horizontalSplitTest splitX p = false ->
  splitPill splitX splitY p b
  = (tt, mkBuilder (newPills b ++ [p]) (nextUuid b)).
Proof. intros V H. run_body. rewrite V, H. reflexivity. Qed.

Lemma splitPill_nudge_up :
  verticalSplitTest splitY p = true ->
  splitY - y p < MIN_SPLIT_SIZE ->
  splitPill splitX splitY p b
  = (tt, mkBuilder (newPills b ++ [with_y p (y p - 10)]) (nextUuid b)).
Proof.
  intros V T. run_body. rewrite V.
  set_ltb (splitY - y p <? MIN_SPLIT_SIZE) true.
  cbn. rewrite andb_false_r. reflexivity.
Qed.

Lemma splitPill_nudge_down :
  verticalSplitTest splitY p = true ->
  MIN_SPLIT_SIZE <= splitY - y p ->
  height p - (splitY - y p) < MIN_SPLIT_SIZE ->
  splitPill splitX splitY p b
  = (tt, mkBuilder (newPills b ++ [with_y p (y p + 10)]) (nextUuid b)).
Proof.
  intros V T B. run_body. rewrite V.
  set_ltb (splitY - y p <? MIN_SPLIT_SIZE) false.
  set_ltb (height p - (splitY - y p) <? MIN_SPLIT_SIZE) true.
  cbn. rewrite andb_false_r. reflexivity.
Qed.

Lemma splitPill_vertical :
  verticalSplitTest splitY p = true ->
  MIN_SPLIT_SIZE <= splitY - y p ->
  MIN_SPLIT_SIZE <= height p - (splitY - y p) ->
  splitPill splitX splitY p b
  = (tt, mkBuilder
           (newPills b ++
            [mkPill (Uuid (nextUuid b)) (x p) (y p) (width p)
                    (splitY - y p) (color p) BORDER_RADIUS;
             mkPill (Uuid (N.succ (nextUuid b))) (x p) splitY (width p)
                    (height p - (splitY - y p)) (color p) BORDER_RADIUS])
           (N.succ (N.succ (nextUuid b)))).
Proof.
  intros V T B. run_body. rewrite V.
  set_ltb (splitY - y p <? MIN_SPLIT_SIZE) false.
  set_ltb (height p - (splitY - y p) <? MIN_SPLIT_SIZE) false.
  cbn. rewrite andb_false_r. cbn. rewrite <- app_assoc. reflexivity.
Qed.

Lemma splitPill_nudge_left :
  verticalSplitTest splitY p = false ->
  horizontalSplitTest splitX p = true ->
  splitX - x p < MIN_SPLIT_SIZE ->
  splitPill splitX splitY p b
  = (tt, mkBuilder (newPills b ++ [with_x p (x p - 10)]) (nextUuid b)).
Proof.
  intros V H L. run_body. rewrite V, H.
  set_ltb (splitX - x p <? MIN_SPLIT_SIZE) true.
  reflexivity.
Qed.

Lemma splitPill_nudge_right :
  verticalSplitTest splitY p = false ->
  horizontalSplitTest splitX p = true ->
  MIN_SPLIT_SIZE <= splitX - x p ->
  width p - (splitX - x p) < MIN_SPLIT_SIZE ->
  splitPill splitX splitY p b
  = (tt, mkBuilder (newPills b ++ [with_x p (x p + 10)]) (nextUuid b)).
Proof.
  intros V H L R. run_body. rewrite V, H.
  set_ltb (splitX - x p <? MIN_SPLIT_SIZE) false.
  set_ltb (width p - (splitX - x p) <? MIN_SPLIT_SIZE) true.
  reflexivity.
Qed.

Lemma splitPill_horizontal :
  verticalSplitTest splitY p = false ->
  horizontalSplitTest splitX p = true ->
  MIN_SPLIT_SIZE <= splitX - x p ->
  MIN_SPLIT_SIZE <= width p - (splitX - x p) ->
  splitPill splitX splitY p b
  = (tt, mkBuilder
           (newPills b ++
            [mkPill (Uuid (nextUuid b)) (x p) (y p) (splitX - x p)
                    (height p) (color p) BORDER_RADIUS;
             mkPill (Uuid (N.succ (nextUuid b))) splitX (y p)
                    (width p - (splitX - x p)) (height p) (color p)
                    BORDER_RADIUS])
           (N.succ (N.succ (nextUuid b)))).
Proof.
  intros V H L R. run_body. rewrite V, H.
  set_ltb (splitX - x p <? MIN_SPLIT_SIZE) false.
  set_ltb (width p - (splitX - x p) <? MIN_SPLIT_SIZE) false.
  cbn. rewrite <- app_assoc. reflexivity.
Qed.
End Body.

(** ** The whole pass *)

Lemma forEach_app (f : Pill -> M unit) (l1 l2 : list Pill) (b : Builder) :
  forEach f (l1 ++ l2) b = forEach f l2 (forEach f l1 b).
Proof. apply fold_left_app. Qed.

Lemma forEach_cons (f : Pill -> M unit) (p : Pill) (l : list Pill)
      (b : Builder) :
  forEach f (p :: l) b = forEach f l (snd (f p b)).
Proof. reflexivity. Qed.

(** What an iteration pushes and draws does not depend on what is already
    in [newPills]. *)
Lemma splitPill_frame (sx sy : Z) (p : Pill) (b : Builder) :
  snd (splitPill sx sy p b)
  = mkBuilder
      (newPills b
       ++ newPills (snd (splitPill sx sy p (mkBuilder [] (nextUuid b)))))
      (nextUuid (snd (splitPill sx sy p (mkBuilder [] (nextUuid b))))).
Proof.
  destruct (verticalSplitTest sy p) eqn:V.
  - destruct (Z.lt_ge_cases (sy - y p) MIN_SPLIT_SIZE) as [T|T].
    + now rewrite !splitPill_nudge_up.
    + destruct (Z.lt_ge_cases (height p - (sy - y p)) MIN_SPLIT_SIZE)
        as [B|B].
      * now rewrite !splitPill_nudge_down.
      * now rewrite !splitPill_vertical.
  - destruct (horizontalSplitTest sx p) eqn:H.
    + destruct (Z.lt_ge_cases (sx - x p) MIN_SPLIT_SIZE) as [L|L].
      * now rewrite !splitPill_nudge_left.
      * destruct (Z.lt_ge_cases (width p - (sx - x p)) MIN_SPLIT_SIZE)
          as [R|R].
        -- now rewrite !splitPill_nudge_right.
        -- now rewrite !splitPill_horizontal.
    + now rewrite !splitPill_untouched.
Qed.

Lemma forEach_frame (sx sy : Z) (l : list Pill) :
  forall b : Builder,
    forEach (splitPill sx sy) l b
    = mkBuilder (newPills b ++ newPills (applySplit l sx sy (nextUuid b)))
                (nextUuid (applySplit l sx sy (nextUuid b))).
Proof.
  unfold applySplit.
  induction l as [|p l IH]; intros b.
  - simpl. rewrite app_nil_r. now destruct b.
  - rewrite !forEach_cons.
    rewrite (IH (snd (splitPill sx sy p b))).
    rewrite (IH (snd (splitPill sx sy p (mkBuilder [] (nextUuid b))))).
    rewrite (splitPill_frame sx sy p b). cbn [newPills nextUuid].
    now rewrite app_assoc.
Qed.

(** The pass over [l1 ++ p :: l2] is the pass over [l1], then the
    iteration for [p], then the pass over [l2], each starting from the
    identifier counter the previous one left. *)
Lemma applySplit_middle (sx sy : Z) (l1 l2 : list Pill) (p : Pill) (n : N) :
  let b1 := applySplit l1 sx sy n in
  let bp := snd (splitPill sx sy p (mkBuilder [] (nextUuid b1))) in
  let b2 := applySplit l2 sx sy (nextUuid bp) in
  applySplit (l1 ++ p :: l2) sx sy n
  = mkBuilder (newPills b1 ++ newPills bp ++ newPills b2) (nextUuid b2).
Proof.
  intros b1 bp b2. unfold applySplit at 1.
  rewrite forEach_app, forEach_cons.
  fold (applySplit l1 sx sy n). fold b1.
  rewrite (splitPill_frame sx sy p b1). fold bp.
  rewrite forEach_frame. cbn [newPills nextUuid]. fold b2.
  now rewrite app_assoc.
Qed.

Lemma applySplit_cons (sx sy : Z) (l : list Pill) (p : Pill) (n : N) :
  let bp := snd (splitPill sx sy p (mkBuilder [] n)) in
  let b2 := applySplit l sx sy (nextUuid bp) in
  applySplit (p :: l) sx sy n
  = mkBuilder (newPills bp ++ newPills b2) (nextUuid b2).
Proof. apply (applySplit_middle sx sy [] l p n). Qed.

(** ** Identifiers in the store *)

Lemma idBelow_mono (n m : N) (i : Id) :
  (n <= m)%N -> idBelow n i -> idBelow m i.
Proof. intros L H k E. specialize (H k E). lia. Qed.

(** The identifiers one iteration emits: the pill's own, or freshly
    drawn ones. *)
Lemma splitPill_ids (sx sy : Z) (p : Pill) (n : N) :
  let bp := snd (splitPill sx sy p (mkBuilder [] n)) in
  (map id (newPills bp) = [id p] /\ nextUuid bp = n)
  \/ (map id (newPills bp) = [Uuid n; Uuid (N.succ n)]
      /\ nextUuid bp = N.succ (N.succ n)).
Proof.
  cbv zeta.
  destruct (verticalSplitTest sy p) eqn:V.
  - destruct (Z.lt_ge_cases (sy - y p) MIN_SPLIT_SIZE) as [T|T].
    + rewrite splitPill_nudge_up by assumption. now left.
    + destruct (Z.lt_ge_cases (height p - (sy - y p)) MIN_SPLIT_SIZE)
        as [B|B].
      * rewrite splitPill_nudge_down by assumption. now left.
      * rewrite splitPill_vertical by assumption. now right.
  - destruct (horizontalSplitTest sx p) eqn:H.
    + destruct (Z.lt_ge_cases (sx - x p) MIN_SPLIT_SIZE) as [L|L].
      * rewrite splitPill_nudge_left by assumption. now left.
      * destruct (Z.lt_ge_cases (width p - (sx - x p)) MIN_SPLIT_SIZE)
          as [R|R].
        -- rewrite splitPill_nudge_right by assumption. now left.
        -- rewrite splitPill_horizontal by assumption. now right.
    + rewrite splitPill_untouched by assumption. now left.
Qed.

(** Every identifier after the pass was in the store before it or was
    drawn during it; the counter only grows. *)
Lemma applySplit_ids_from (sx sy : Z) (l : list Pill) :
  forall n : N,
    let b := applySplit l sx sy n in
    (n <= nextUuid b)%N
    /\ forall i, In i (map id (newPills b)) ->
                 In i (map id l)
                 \/ exists k, i = Uuid k /\ (n <= k < nextUuid b)%N.
Proof.
  induction l as [|p l IH]; intros n; cbv zeta.
  - unfold applySplit; simpl. split; [lia | tauto].
  - rewrite applySplit_cons. cbn [newPills nextUuid].
    set (bp := snd (splitPill sx sy p (mkBuilder [] n))).
    destruct (IH (nextUuid bp)) as [Hle Hin]. cbv zeta in Hle, Hin.
    destruct (splitPill_ids sx sy p n) as [[Hi Hn]|[Hi Hn]];
      fold bp in Hi, Hn.
    + split; [lia|]. intros i. rewrite map_app, in_app_iff, Hi.
      intros [[<-|[]]|Hr].
      * left. now left.
      * destruct (Hin i Hr) as [?|(k & -> & Hk)].
        -- left. now right.
        -- right. exists k. split; [reflexivity | lia].
    + split; [lia|]. intros i. rewrite map_app, in_app_iff, Hi.
      intros [[<-|[<-|[]]]|Hr].
      * right. exists n. split; [reflexivity | lia].
      * right. exists (N.succ n). split; [reflexivity | lia].
      * destruct (Hin i Hr) as [?|(k & -> & Hk)].
        -- left. now right.
        -- right. exists k. split; [reflexivity | lia].
Qed.

(** The pass keeps the identifiers of the store pairwise distinct. *)
Lemma applySplit_idsWf (sx sy : Z) (l : list Pill) :
  forall n : N,
    idsWf n l ->
    idsWf (nextUuid (applySplit l sx sy n)) (newPills (applySplit l sx sy n)).
Proof.
  induction l as [|p l IH]; intros n [Hnd Hb].
  - unfold applySplit; simpl. split; constructor.
  - rewrite applySplit_cons. cbn [newPills nextUuid].
    set (bp := snd (splitPill sx sy p (mkBuilder [] n))).
    simpl in Hnd. inversion Hnd as [|? ? Hnotin Hnd']; subst.
    inversion Hb as [|? ? Hp Hb']; subst.
    assert (Hn : (n <= nextUuid bp)%N).
    { destruct (splitPill_ids sx sy p n) as [[_ E]|[_ E]]; fold bp in E; lia. }
    assert (Hl : idsWf (nextUuid bp) l).
    { split; [assumption|]. eapply Forall_impl; [|exact Hb'].
      intros q. now apply idBelow_mono. }
    destruct (IH _ Hl) as [IHnd IHb].
    destruct (applySplit_ids_from sx sy l (nextUuid bp)) as [Hle Hin].
    cbv zeta in Hle, Hin.
    assert (Hold : forall q, In q l -> idBelow n (id q)).
    { now apply Forall_forall. }
    split.
    + rewrite map_app.
      destruct (splitPill_ids sx sy p n) as [[Hi Hn']|[Hi Hn']];
        fold bp in Hi, Hn'; rewrite Hi.
      * simpl. constructor; [|assumption].
        intros Hr. destruct (Hin _ Hr) as [?|(k & E & Hk)];
          [contradiction|]. specialize (Hp k E). lia.
      * simpl. constructor; [|constructor; [|assumption]].
        -- intros [E|Hr]; [injection E; lia|].
           destruct (Hin _ Hr) as [Hm|(k & E & Hk)].
           ++ apply in_map_iff in Hm. destruct Hm as (q & Eq & Hq).
              specialize (Hold q Hq n Eq). lia.
           ++ injection E as <-. lia.
        -- intros Hr. destruct (Hin _ Hr) as [Hm|(k & E & Hk)].
           ++ apply in_map_iff in Hm. destruct Hm as (q & Eq & Hq).
              specialize (Hold q Hq (N.succ n) Eq). lia.
           ++ injection E as <-. lia.
    + apply Forall_app. split; [|assumption].
      apply Forall_forall. intros q Hq k E.
      assert (Hq' : In (id q) (map id (newPills bp))) by now apply in_map.
      destruct (splitPill_ids sx sy p n) as [[Hi Hn']|[Hi Hn']];
        fold bp in Hi, Hn'; rewrite Hi in Hq'; simpl in Hq'.
      * destruct Hq' as [Eq|[]]. rewrite <- Eq in E. specialize (Hp k E). lia.
      * destruct Hq' as [Eq|[Eq|[]]]; rewrite <- Eq in E;
          injection E as <-; lia.
Qed.

(** ** Case analysis on one iteration

    To prove a property of what one iteration leaves in the builder it is
    enough to prove it on each of the seven paths. *)

Lemma splitPill_cases (sx sy : Z) (p : Pill) (b : Builder)
      (P : unit * Builder -> Prop) :
  (verticalSplitTest sy p = false -> horizontalSplitTest sx p = false ->
   P (tt, mkBuilder (newPills b ++ [p]) (nextUuid b))) ->
  (verticalSplitTest sy p = true -> sy - y p < MIN_SPLIT_SIZE ->
   P (tt, mkBuilder (newPills b ++ [with_y p (y p - 10)]) (nextUuid b))) ->
  (verticalSplitTest sy p = true -> MIN_SPLIT_SIZE <= sy - y p ->
   height p - (sy - y p) < MIN_SPLIT_SIZE ->
   P (tt, mkBuilder (newPills b ++ [with_y p (y p + 10)]) (nextUuid b))) ->
  (verticalSplitTest sy p = true -> MIN_SPLIT_SIZE <= sy - y p ->
   MIN_SPLIT_SIZE <= height p - (sy - y p) ->
   P (tt, mkBuilder
            (newPills b ++
             [mkPill (Uuid (nextUuid b)) (x p) (y p) (width p)
                     (sy - y p) (color p) BORDER_RADIUS;
              mkPill (Uuid (N.succ (nextUuid b))) (x p) sy (width p)
                     (height p - (sy - y p)) (color p) BORDER_RADIUS])
            (N.succ (N.succ (nextUuid b))))) ->
  (verticalSplitTest sy p = false -> horizontalSplitTest sx p = true ->
   sx - x p < MIN_SPLIT_SIZE ->
   P (tt, mkBuilder (newPills b ++ [with_x p (x p - 10)]) (nextUuid b))) ->
  (verticalSplitTest sy p = false -> horizontalSplitTest sx p = true ->
   MIN_SPLIT_SIZE <= sx - x p -> width p - (sx - x p) < MIN_SPLIT_SIZE ->
   P (tt, mkBuilder (newPills b ++ [with_x p (x p + 10)]) (nextUuid b))) ->
  (verticalSplitTest sy p = false -> horizontalSplitTest sx p = true ->
   MIN_SPLIT_SIZE <= sx - x p -> MIN_SPLIT_SIZE <= width p - (sx - x p) ->
   P (tt, mkBuilder
            (newPills b ++
             [mkPill (Uuid (nextUuid b)) (x p) (y p) (sx - x p)
                     (height p) (color p) BORDER_RADIUS;
              mkPill (Uuid (N.succ (nextUuid b))) sx (y p)
                     (width p - (sx - x p)) (height p) (color p)
                     BORDER_RADIUS])
            (N.succ (N.succ (nextUuid b))))) ->
  P (splitPill sx sy p b).
Proof.
  intros C0 C1 C2 C3 C4 C5 C6.
  destruct (verticalSplitTest sy p) eqn:V.
  - destruct (Z.lt_ge_cases (sy - y p) MIN_SPLIT_SIZE) as [T|T].
    + rewrite splitPill_nudge_up by assumption. auto.
    + destruct (Z.lt_ge_cases (height p - (sy - y p)) MIN_SPLIT_SIZE)
        as [B|B].
      * rewrite splitPill_nudge_down by assumption. auto.
      * rewrite splitPill_vertical by assumption. auto.
  - destruct (horizontalSplitTest sx p) eqn:H.
    + destruct (Z.lt_ge_cases (sx - x p) MIN_SPLIT_SIZE) as [L|L].
      * rewrite splitPill_nudge_left by assumption. auto.
      * destruct (Z.lt_ge_cases (width p - (sx - x p)) MIN_SPLIT_SIZE)
          as [R|R].
        -- rewrite splitPill_nudge_right by assumption. auto.
        -- rewrite splitPill_horizontal by assumption. auto.
    + rewrite splitPill_untouched by assumption. auto.
Qed.

(** ** [handleClick] when neither drawing nor dragging *)

Lemma handleClick_idle (e : MouseEvent) (s : State) :
  drawing s = false -> draggingPillId s = None ->
  handleClick e s
  = mkState (newPills (applySplit (pills s) (clientX e) (clientY e)
                                  (uuidNext s)))
            (splitLines s) (drawing s) (drawStart s) (tempPill s)
            (draggingPillId s) (dragOffset s)
            (nextUuid (applySplit (pills s) (clientX e) (clientY e)
                                  (uuidNext s))).
Proof. intros D G. unfold handleClick. now rewrite D, G. Qed.

Lemma handleClick_busy (e : MouseEvent) (s : State) :
  drawing s = true \/ draggingPillId s <> None -> handleClick e s = s.
Proof.
  intros [D|G]; unfold handleClick.
  - now rewrite D.
  - destruct (draggingPillId s); [|contradiction].
    now rewrite orb_true_r.
Qed.

Lemma idsWf_fresh (n : N) (l : list Pill) (k : N) :
  idsWf n l -> (n <= k)%N -> ~ In (Uuid k) (map id l).
Proof.
  intros [_ Hb] Hk Hin. apply in_map_iff in Hin.
  destruct Hin as (q & E & Hq).
  rewrite Forall_forall in Hb. specialize (Hb q Hq k E). lia.
Qed.

(** ** Claims about the split pass *)

(** C2.  A click whose horizontal line passes strictly inside pill [p],
    leaving at least [MIN_SPLIT_SIZE] above and below, replaces [p], at
    its place in the store, by a top part and a bottom part: same [x],
    same [width], same colour, heights [splitY - p.y] and the rest, which
    add up to [p.height].  The two identifiers are drawn fresh: they differ
    from each other and from every identifier that was in the store, and
    the identifiers of the new store are pairwise distinct. *)
Theorem click_splits_vertically
        (s : State) (e : MouseEvent) (l1 l2 : list Pill) (p : Pill) :
  drawing s = false -> draggingPillId s = None ->
  pills s = l1 ++ p :: l2 ->
  idsWf (uuidNext s) (pills s) ->
  y p < clientY e < y p + height p ->
  20 <= clientY e - y p ->
  20 <= height p - (clientY e - y p) ->
  let sx := clientX e in
  let sy := clientY e in
  let topH := sy - y p in
  let botH := height p - topH in
  let before := applySplit l1 sx sy (uuidNext s) in
  let i1 := Uuid (nextUuid before) in
  let i2 := Uuid (N.succ (nextUuid before)) in
  let after := applySplit l2 sx sy (N.succ (N.succ (nextUuid before))) in
  pills (handleClick e s)
  = newPills before
    ++ [ mkPill i1 (x p) (y p) (width p) topH (color p) BORDER_RADIUS;
         mkPill i2 (x p) sy (width p) botH (color p) BORDER_RADIUS ]
    ++ newPills after
  /\ topH + botH = height p
  /\ i1 <> i2
  /\ ~ In i1 (map id (pills s))
  /\ ~ In i2 (map id (pills s))
  /\ NoDup (map id (pills (handleClick e s))).
Proof.
  intros D G Hl Hwf Hin Ht Hb sx sy topH botH before i1 i2 after.
  pose proof (applySplit_ids_from sx sy l1 (uuidNext s)) as [Hle _].
  fold before in Hle.
  rewrite handleClick_idle by assumption. cbn [pills].
  fold sx sy. repeat split.
  - rewrite Hl, applySplit_middle. cbn [newPills]. fold before.
    rewrite splitPill_vertical.
    + reflexivity.
    + now apply verticalSplitTest_spec.
    + exact Ht.
    + exact Hb.
  - unfold topH, botH. lia.
  - unfold i1, i2. intros E. injection E. lia.
  - apply (idsWf_fresh (uuidNext s)); [assumption | lia].
  - apply (idsWf_fresh (uuidNext s)); [assumption | lia].
  - now apply applySplit_idsWf.
Qed.

Lemma click_splits_vertically_witness :
  let p := mkPill (Uuid 0) 100 100 100 100 "#1F2E3D" 20 in
  let s := mkState [p] (mkSplitLines 150 140 true) false (mkPoint 100 100)
                   None None (mkPoint 0 0) 1%N in
  pills (handleClick (mkMouseEvent 150 140 0) s)
  = [ mkPill (Uuid 1) 100 100 100 40 "#1F2E3D" 20;
      mkPill (Uuid 2) 100 140 100 60 "#1F2E3D" 20 ].
Proof.
  intros p s.
  refine (proj1 (click_splits_vertically s (mkMouseEvent 150 140 0)
                   [] [] p eq_refl eq_refl eq_refl _ _ _ _)).
  - split.
    + simpl. constructor; [intros [] | constructor].
    + constructor; [|constructor]. intros k E. injection E as <-. now simpl.
  - simpl; lia.
  - simpl; lia.
  - simpl; lia.
Defined.

(** C3.  When the click's horizontal line passes strictly inside [p] but
    one of the two parts would be lower than [MIN_SPLIT_SIZE], [p] is
    replaced, at its place, by exactly one pill: [p] itself moved by 10
    along [y], up when the top part is the short one and down otherwise;
    identifier, [x], size and colour are kept and no identifier is drawn.
    The horizontal test, which runs when the vertical one did not handle
    [p], does the same along [x]. *)
Theorem click_nudges_undersized
        (s : State) (e : MouseEvent) (l1 l2 : list Pill) (p : Pill) :
  drawing s = false -> draggingPillId s = None ->
  pills s = l1 ++ p :: l2 ->
  let sx := clientX e in
  let sy := clientY e in
  let before := applySplit l1 sx sy (uuidNext s) in
  let after := applySplit l2 sx sy (nextUuid before) in
  let replaced_by q :=
    pills (handleClick e s) = newPills before ++ [q] ++ newPills after
    /\ List.length (pills (handleClick e s))
       = (List.length (newPills before) + 1
          + List.length (newPills after))%nat in
  (y p < sy < y p + height p ->
   sy - y p < 20 \/ height p - (sy - y p) < 20 ->
   replaced_by
     (mkPill (id p) (x p)
             (if sy - y p <? 20 then y p - 10 else y p + 10)
             (width p) (height p) (color p) (borderRadius p)))
  /\
  (~ (y p < sy < y p + height p) ->
   x p < sx < x p + width p ->
   sx - x p < 20 \/ width p - (sx - x p) < 20 ->
   replaced_by
     (mkPill (id p)
             (if sx - x p <? 20 then x p - 10 else x p + 10)
             (y p) (width p) (height p) (color p) (borderRadius p))).
Proof.
  intros D G Hl sx sy before after replaced_by.
  assert (Hshape : forall q,
             snd (splitPill sx sy p (mkBuilder [] (nextUuid before)))
             = mkBuilder [q] (nextUuid before) ->
             replaced_by q).
  { intros q Hq. unfold replaced_by.
    rewrite handleClick_idle by assumption. cbn [pills].
    fold sx sy. rewrite Hl, applySplit_middle. cbn [newPills].
    fold before. rewrite Hq. cbn [newPills nextUuid]. fold after.
    split; [reflexivity|]. rewrite !length_app. simpl. lia. }
  split.
  - intros Hin Hsmall. apply Hshape.
    apply verticalSplitTest_spec in Hin.
    destruct (Z.ltb_spec (sy - y p) 20) as [T|T].
    + now rewrite splitPill_nudge_up.
    + rewrite splitPill_nudge_down; [reflexivity | assumption | exact T |].
      unfold MIN_SPLIT_SIZE. lia.
  - intros Hout Hin Hsmall. apply Hshape.
    apply verticalSplitTest_false in Hout.
    apply horizontalSplitTest_spec in Hin.
    destruct (Z.ltb_spec (sx - x p) 20) as [L|L].
    + now rewrite splitPill_nudge_left.
    + rewrite splitPill_nudge_right;
        [reflexivity | assumption | assumption | exact L |].
      unfold MIN_SPLIT_SIZE. lia.
Qed.

Lemma click_nudges_undersized_witness :
  let p := mkPill (Uuid 0) 100 100 100 100 "#1F2E3D" 20 in
  let s := mkState [p] (mkSplitLines 150 110 true) false (mkPoint 100 100)
                   None None (mkPoint 0 0) 1%N in
  pills (handleClick (mkMouseEvent 150 110 0) s)
  = [ mkPill (Uuid 0) 100 90 100 100 "#1F2E3D" 20 ]
  /\ pills (handleClick (mkMouseEvent 190 100 0) s)
     = [ mkPill (Uuid 0) 110 100 100 100 "#1F2E3D" 20 ].
Proof.
  intros p s. split.
  - refine (proj1 (proj1 (click_nudges_undersized s (mkMouseEvent 150 110 0)
                            [] [] p eq_refl eq_refl eq_refl) _ _)).
    + simpl; lia.
    + simpl; lia.
  - refine (proj1 (proj2 (click_nudges_undersized s (mkMouseEvent 190 100 0)
                            [] [] p eq_refl eq_refl eq_refl) _ _ _)).
    + simpl; lia.
    + simpl; lia.
    + simpl; lia.
Defined.

(** Once the vertical test holds, [splitX] plays no part in the
    iteration. *)
Lemma splitPill_vertical_first (sx sx' sy : Z) (p : Pill) (b : Builder) :
  verticalSplitTest sy p = true ->
  splitPill sx' sy p b = splitPill sx sy p b.
Proof.
  intros V.
  destruct (Z.lt_ge_cases (sy - y p) MIN_SPLIT_SIZE) as [T|T].
  - now rewrite !splitPill_nudge_up.
  - destruct (Z.lt_ge_cases (height p - (sy - y p)) MIN_SPLIT_SIZE) as [B|B].
    + now rewrite !splitPill_nudge_down.
    + now rewrite !splitPill_vertical.
Qed.

(** C4.  One iteration changes a pill at most once.  It emits one or two
    pills, never more.  When the vertical test holds the horizontal one
    plays no part: the outcome is the same for every [splitX], and every
    emitted pill keeps [p]'s [x] and [width].  A single emitted pill is
    [p] with its size and identifier (kept or moved, not split); two
    emitted pills tile [p] along exactly one axis, starting at [p]'s own
    corner (split, not moved). *)
Theorem one_change_per_pill (sx sy : Z) (p : Pill) (n : N) :
  let out := newPills (snd (splitPill sx sy p (mkBuilder [] n))) in
  (1 <= List.length out <= 2)%nat
  /\ (verticalSplitTest sy p = true ->
      (forall sx',
          splitPill sx' sy p (mkBuilder [] n)
          = splitPill sx sy p (mkBuilder [] n))
      /\ Forall (fun q => x q = x p /\ width q = width p) out)
  /\ (forall q, out = [q] ->
                id q = id p /\ width q = width p /\ height q = height p)
  /\ (forall q1 q2, out = [q1; q2] ->
        x q1 = x p /\ y q1 = y p
        /\ ((x q2 = x p /\ y q2 = y p + height q1
             /\ width q1 = width p /\ width q2 = width p
             /\ height q1 + height q2 = height p)
            \/ (y q2 = y p /\ x q2 = x p + width q1
                /\ height q1 = height p /\ height q2 = height p
                /\ width q1 + width q2 = width p))).
Proof.
  cbv zeta. split; [|split; [|split]].
  - pattern (splitPill sx sy p (mkBuilder [] n)).
    apply splitPill_cases; intros; cbn; lia.
  - intros V. split.
    + intros sx'. now apply splitPill_vertical_first.
    + revert V. pattern (splitPill sx sy p (mkBuilder [] n)).
      apply splitPill_cases; intros; cbn; try congruence;
        repeat constructor.
  - pattern (splitPill sx sy p (mkBuilder [] n)).
    apply splitPill_cases; intros; cbn in *;
      try discriminate;
      match goal with H : [_] = [_] |- _ =>
        inversion H; subst; clear H end;
      cbn; auto.
  - pattern (splitPill sx sy p (mkBuilder [] n)).
    apply splitPill_cases; intros; cbn in *;
      try discriminate;
      match goal with H : [_; _] = [_; _] |- _ =>
        inversion H; subst; clear H end;
      cbn; (split; [reflexivity | split; [reflexivity|]]).
    + left. repeat split; lia.
    + right. repeat split; lia.
Qed.

(** C7.  A click at a point whose [y] is strictly inside no pill's
    vertical span and whose [x] is strictly inside no pill's horizontal
    span changes nothing: the state after the click is the state before
    it, store included, pill for pill and field for field. *)
Theorem click_outside_changes_nothing (s : State) (e : MouseEvent) :
  drawing s = false -> draggingPillId s = None ->
  (forall p, In p (pills s) ->
             ~ (y p < clientY e < y p + height p)
             /\ ~ (x p < clientX e < x p + width p)) ->
  handleClick e s = s.
Proof.
  intros D G Hout. rewrite handleClick_idle by assumption.
  assert (Hpass : forall l n,
             (forall p, In p l ->
                        ~ (y p < clientY e < y p + height p)
                        /\ ~ (x p < clientX e < x p + width p)) ->
             applySplit l (clientX e) (clientY e) n = mkBuilder l n).
  { induction l as [|p l IH]; intros n Hl; [reflexivity|].
    rewrite applySplit_cons.
    destruct (Hl p (or_introl eq_refl)) as [Hv Hh].
    rewrite splitPill_untouched
      by (apply verticalSplitTest_false || apply horizontalSplitTest_false;
          assumption).
    cbn [snd newPills nextUuid]. rewrite IH; [reflexivity|].
    intros q Hq. apply Hl. now right. }
  rewrite Hpass by assumption. now destruct s.
Qed.

Lemma click_outside_changes_nothing_witness :
  let p := mkPill (Uuid 0) 100 100 100 100 "#1F2E3D" 20 in
  let s := mkState [p] (mkSplitLines 250 300 true) false (mkPoint 100 100)
                   None None (mkPoint 0 0) 1%N in
  handleClick (mkMouseEvent 250 300 0) s = s.
Proof.
  intros p s.
  apply (click_outside_changes_nothing s (mkMouseEvent 250 300 0)
           eq_refl eq_refl).
  intros q [<-|[]]. simpl. lia.
Defined.

(** C8.  A split line that lies exactly on an edge of [p] does not pass
    the corresponding test; if both lines lie on edges, the iteration
    pushes [p] itself.  A horizontal line on the top or bottom edge leaves
    [y] and [height] of every emitted pill equal to [p]'s; a vertical line
    on the left or right edge leaves [x] and [width] equal to [p]'s. *)
Theorem edge_does_not_split (sx sy : Z) (p : Pill) (n : N) :
  let out := newPills (snd (splitPill sx sy p (mkBuilder [] n))) in
  (sy = y p \/ sy = y p + height p ->
   verticalSplitTest sy p = false
   /\ Forall (fun q => y q = y p /\ height q = height p) out)
  /\ (sx = x p \/ sx = x p + width p ->
      horizontalSplitTest sx p = false
      /\ Forall (fun q => x q = x p /\ width q = width p) out)
  /\ ((sy = y p \/ sy = y p + height p) ->
      (sx = x p \/ sx = x p + width p) ->
      splitPill sx sy p (mkBuilder [] n) = (tt, mkBuilder [p] n)).
Proof.
  cbv zeta.
  assert (V : sy = y p \/ sy = y p + height p ->
              verticalSplitTest sy p = false).
  { intros E. apply verticalSplitTest_false. lia. }
  assert (H : sx = x p \/ sx = x p + width p ->
              horizontalSplitTest sx p = false).
  { intros E. apply horizontalSplitTest_false. lia. }
  split; [|split].
  - intros E. specialize (V E). split; [assumption|].
    revert V. pattern (splitPill sx sy p (mkBuilder [] n)).
    apply splitPill_cases; intros; cbn; try congruence;
      repeat constructor.
  - intros E. specialize (H E). split; [assumption|].
    revert H. pattern (splitPill sx sy p (mkBuilder [] n)).
    apply splitPill_cases; intros; cbn; try congruence;
      repeat constructor.
  - intros Ey Ex. now apply splitPill_untouched; auto.
Qed.

(** ** Pointer moves *)

Lemma handleMouseMove_frame (e : MouseEvent) (s : State) :
  drawing (handleMouseMove e s) = drawing s
  /\ drawStart (handleMouseMove e s) = drawStart s
  /\ draggingPillId (handleMouseMove e s) = draggingPillId s
  /\ dragOffset (handleMouseMove e s) = dragOffset s
  /\ uuidNext (handleMouseMove e s) = uuidNext s.
Proof. now repeat split. Qed.

Lemma handleMouseMove_pills_idle (e : MouseEvent) (s : State) :
  draggingPillId s = None -> pills (handleMouseMove e s) = pills s.
Proof. intros G. unfold handleMouseMove. now rewrite G. Qed.

Lemma handleMouseMove_pills_drag (e : MouseEvent) (s : State) (d : Id) :
  draggingPillId s = Some d ->
  pills (handleMouseMove e s)
  = dragTo d (clientX e - pt_x (dragOffset s))
           (clientY e - pt_y (dragOffset s)) (pills s).
Proof. intros G. unfold handleMouseMove. now rewrite G. Qed.

Lemma handleMouseMove_draft (e : MouseEvent) (s : State) (t : Pill) :
  tempPill s = Some t ->
  exists t', tempPill (handleMouseMove e s) = Some t'
             /\ color t' = color t.
Proof.
  intros T. unfold handleMouseMove. rewrite T. cbn [tempPill].
  destruct (drawing s); eexists; split; reflexivity.
Qed.

Lemma run_moves (ms : list MouseEvent) :
  forall s, run s (map MouseMove ms) = Some (moveAll ms s).
Proof.
  induction ms as [|m ms IH]; intros s; [reflexivity|].
  simpl. apply IH.
Qed.

Lemma run_app (evs1 evs2 : list Event) :
  forall s, run s (evs1 ++ evs2)
            = match run s evs1 with
              | Some s' => run s' evs2
              | None => None
              end.
Proof.
  induction evs1 as [|ev evs1 IH]; intros s; [reflexivity|].
  simpl. destruct (step s ev); [apply IH | reflexivity].
Qed.

Lemma moveAll_frame (ms : list MouseEvent) :
  forall s,
    drawing (moveAll ms s) = drawing s
    /\ drawStart (moveAll ms s) = drawStart s
    /\ draggingPillId (moveAll ms s) = draggingPillId s
    /\ dragOffset (moveAll ms s) = dragOffset s
    /\ uuidNext (moveAll ms s) = uuidNext s.
Proof.
  induction ms as [|m ms IH]; intros s; [now repeat split|].
  simpl. destruct (IH (handleMouseMove m s)) as (A & B & C & D & E).
  rewrite A, B, C, D, E. apply handleMouseMove_frame.
Qed.

Lemma moveAll_pills_idle (ms : list MouseEvent) :
  forall s, draggingPillId s = None -> pills (moveAll ms s) = pills s.
Proof.
  induction ms as [|m ms IH]; intros s G; [reflexivity|].
  simpl. rewrite IH; [now apply handleMouseMove_pills_idle|].
  now destruct (handleMouseMove_frame m s) as (_ & _ & -> & _).
Qed.

Lemma moveAll_draft (ms : list MouseEvent) :
  forall s t, tempPill s = Some t ->
              exists t', tempPill (moveAll ms s) = Some t'
                         /\ color t' = color t.
Proof.
  induction ms as [|m ms IH]; intros s t T.
  - exists t. now split.
  - simpl. destruct (handleMouseMove_draft m s t T) as (t1 & T1 & C1).
    destruct (IH _ _ T1) as (t2 & T2 & C2).
    exists t2. split; [assumption | congruence].
Qed.

(** ** Pointer up while drawing *)

Lemma handleMouseUp_commit (e : MouseEvent) (s : State) (d : Pill) :
  drawing s = true -> tempPill s = Some d ->
  MIN_DRAW_SIZE <= Z.abs (clientX e - pt_x (drawStart s)) ->
  MIN_DRAW_SIZE <= Z.abs (clientY e - pt_y (drawStart s)) ->
  handleMouseUp e s
  = Some (mkState
            (pills s ++
             [mkPill (Uuid (uuidNext s))
                     (Z.min (clientX e) (pt_x (drawStart s)))
                     (Z.min (clientY e) (pt_y (drawStart s)))
                     (Z.abs (clientX e - pt_x (drawStart s)))
                     (Z.abs (clientY e - pt_y (drawStart s)))
                     (color d) BORDER_RADIUS])
            (splitLines s) false (drawStart s) None None (dragOffset s)
            (N.succ (uuidNext s))).
Proof.
  intros D T W H. unfold handleMouseUp. rewrite D, T.
  apply Z.geb_le in W, H. now rewrite W, H.
Qed.

Lemma handleMouseUp_discard (e : MouseEvent) (s : State) :
  drawing s = true ->
  Z.abs (clientX e - pt_x (drawStart s)) < MIN_DRAW_SIZE
  \/ Z.abs (clientY e - pt_y (drawStart s)) < MIN_DRAW_SIZE ->
  handleMouseUp e s
  = Some (mkState (pills s) (splitLines s) false (drawStart s) None None
                  (dragOffset s) (uuidNext s)).
Proof.
  intros D Hs. unfold handleMouseUp. rewrite D.
  assert (E : (Z.abs (clientX e - pt_x (drawStart s)) >=? MIN_DRAW_SIZE)
              && (Z.abs (clientY e - pt_y (drawStart s)) >=? MIN_DRAW_SIZE)
              = false).
  { apply andb_false_iff. rewrite !Z.geb_leb, !Z.leb_gt. tauto. }
  now rewrite E.
Qed.

(** After any pointer-up that does not fail, the flags that guard
    [handleClick] are down. *)
Lemma handleMouseUp_idle (e : MouseEvent) (s s' : State) :
  handleMouseUp e s = Some s' -> isIdle s'.
Proof.
  unfold handleMouseUp, isIdle. intros H.
  destruct (drawing s) eqn:D.
  - destruct (_ && _).
    + destruct (tempPill s); [|discriminate].
      injection H as <-. now split.
    + injection H as <-. now split.
  - injection H as <-. now split.
Qed.

(** ** The draw gesture *)

(** C5.  A draw gesture is a primary-button press on the background at
    the anchor [a], any number of moves and a release at [e], starting
    with no gesture in progress.  Before the release there is a draft;
    after it there is none.  With [w], [h] the absolute differences of
    the coordinates of [a] and [e]: if both are at least 40 the store
    gains one pill at its end, at the minima of the coordinates, of size
    [w] by [h], with the draft's colour and an identifier no pill of the
    store had; otherwise the store is as it was. *)
Theorem draw_gesture_commits
        (s : State) (a e : MouseEvent) (rnd : nat -> nat)
        (ms : list MouseEvent) :
  drawing s = false -> draggingPillId s = None ->
  button a = 0 -> clickedOnPill a (pills s) = false ->
  idsWf (uuidNext s) (pills s) ->
  let fx := Z.min (clientX e) (clientX a) in
  let fy := Z.min (clientY e) (clientY a) in
  let w := Z.abs (clientX e - clientX a) in
  let h := Z.abs (clientY e - clientY a) in
  exists sd d s',
    run s (MouseDown a rnd :: map MouseMove ms) = Some sd
    /\ drawing sd = true /\ tempPill sd = Some d
    /\ color d = getRandomColor rnd
    /\ run s (MouseDown a rnd :: map MouseMove ms ++ [MouseUp e]) = Some s'
    /\ tempPill s' = None /\ drawing s' = false
    /\ (40 <= w /\ 40 <= h ->
        pills s' = pills s ++ [mkPill (Uuid (uuidNext s)) fx fy w h
                                      (color d) BORDER_RADIUS]
        /\ ~ In (Uuid (uuidNext s)) (map id (pills s))
        /\ idsWf (uuidNext s') (pills s'))
    /\ (w < 40 \/ h < 40 -> pills s' = pills s).
Proof.
  intros D G B C Hwf fx fy w h.
  set (s0 := handleMouseDown a rnd s).
  assert (E0 : s0 = mkState (pills s) (splitLines s) true
                            (mkPoint (clientX a) (clientY a))
                            (Some (mkPill TempPillId (clientX a) (clientY a)
                                          0 0 (getRandomColor rnd)
                                          BORDER_RADIUS))
                            (draggingPillId s) (dragOffset s) (uuidNext s)).
  { unfold s0, handleMouseDown. rewrite C, B. reflexivity. }
  set (sd := moveAll ms s0).
  destruct (moveAll_frame ms s0) as (Fd & Fs & Fg & _ & Fu). fold sd in Fd, Fs, Fg, Fu.
  assert (Fp : pills sd = pills s).
  { unfold sd. rewrite moveAll_pills_idle; rewrite E0; [reflexivity|exact G]. }
  destruct (moveAll_draft ms s0 _ (f_equal tempPill E0)) as (d & Td & Cd).
  fold sd in Td. rewrite E0 in Fd, Fs, Fu. cbn in Fd, Fs, Fu.
  assert (Rd : run s (MouseDown a rnd :: map MouseMove ms) = Some sd).
  { simpl. fold s0. apply run_moves. }
  assert (Ru : run s (MouseDown a rnd :: map MouseMove ms ++ [MouseUp e])
               = handleMouseUp e sd).
  { change (MouseDown a rnd :: map MouseMove ms ++ [MouseUp e])
      with ((MouseDown a rnd :: map MouseMove ms) ++ [MouseUp e]).
    rewrite run_app, Rd. simpl. now destruct (handleMouseUp e sd). }
  destruct (Z_le_gt_dec 40 w) as [Hw|Hw];
    [destruct (Z_le_gt_dec 40 h) as [Hh|Hh]|].
  - eexists sd, d, _. rewrite Ru.
    rewrite (handleMouseUp_commit e sd d Fd Td)
      by (rewrite Fs; assumption).
    rewrite Fs, Fp, Fu. cbn [pt_x pt_y pills tempPill drawing uuidNext].
    split; [assumption|]. split; [assumption|]. split; [assumption|].
    split; [exact Cd|].
    split; [reflexivity|]. split; [reflexivity|]. split; [reflexivity|].
    split; [|lia]. intros _.
    split; [reflexivity|]. split.
    + apply (idsWf_fresh (uuidNext s)); [assumption | lia].
    + destruct Hwf as [Hnd Hb]. split.
      * cbn [pills]. rewrite map_app. simpl. apply NoDup_app. repeat split.
        -- assumption.
        -- constructor; [intros [] | constructor].
        -- intros i Hi [<-|[]]. revert Hi.
           apply (idsWf_fresh (uuidNext s)); [now split | lia].
      * cbn [pills uuidNext]. apply Forall_app. split.
        -- eapply Forall_impl; [|exact Hb]. intros q.
           apply idBelow_mono. lia.
        -- constructor; [|constructor]. intros k Ek.
           injection Ek as <-. lia.
  - eexists sd, d, _. rewrite Ru.
    rewrite (handleMouseUp_discard e sd Fd)
      by (rewrite Fs; unfold MIN_DRAW_SIZE; cbn [pt_x pt_y]; fold h; lia).
    rewrite Fp. cbn [pills tempPill drawing].
    split; [assumption|]. split; [assumption|]. split; [assumption|].
    split; [exact Cd|].
    split; [reflexivity|]. split; [reflexivity|]. split; [reflexivity|].
    split; [lia | reflexivity].
  - eexists sd, d, _. rewrite Ru.
    rewrite (handleMouseUp_discard e sd Fd)
      by (rewrite Fs; unfold MIN_DRAW_SIZE; cbn [pt_x pt_y]; fold w; lia).
    rewrite Fp. cbn [pills tempPill drawing].
    split; [assumption|]. split; [assumption|]. split; [assumption|].
    split; [exact Cd|].
    split; [reflexivity|]. split; [reflexivity|]. split; [reflexivity|].
    split; [lia | reflexivity].
Qed.

Lemma draw_gesture_commits_witness :
  (exists s',
      run initialState
          [ MouseDown (mkMouseEvent 100 100 0) zeros;
            MouseMove (mkMouseEvent 150 150 0);
            MouseUp (mkMouseEvent 200 200 0) ] = Some s'
      /\ pills s' = [ mkPill (Uuid 0) 100 100 100 100 "#000000" 20 ])
  /\ (exists s',
         run initialState
             [ MouseDown (mkMouseEvent 10 10 0) zeros;
               MouseMove (mkMouseEvent 45 60 0);
               MouseUp (mkMouseEvent 45 60 0) ] = Some s'
         /\ pills s' = []).
Proof.
  assert (Hwf : idsWf (uuidNext initialState) (pills initialState)).
  { split; constructor. }
  split.
  - destruct (draw_gesture_commits initialState
                (mkMouseEvent 100 100 0) (mkMouseEvent 200 200 0) zeros
                [mkMouseEvent 150 150 0] eq_refl eq_refl eq_refl eq_refl Hwf)
      as (sd & d & s' & _ & _ & _ & Cd & Ru & _ & _ & Hc & _).
    exists s'. split; [exact Ru|].
    destruct Hc as (Hp & _); [simpl; lia|].
    rewrite Hp, Cd. reflexivity.
  - destruct (draw_gesture_commits initialState
                (mkMouseEvent 10 10 0) (mkMouseEvent 45 60 0) zeros
                [mkMouseEvent 45 60 0] eq_refl eq_refl eq_refl eq_refl Hwf)
      as (sd & d & s' & _ & _ & _ & _ & Ru & _ & _ & _ & Hr).
    exists s'. split; [exact Ru|].
    rewrite Hr; [reflexivity | simpl; lia].
Defined.

(** ** The drag gesture *)

Lemma dragTo_dragTo (d : Id) (vx vy vx' vy' : Z) (l : list Pill) :
  dragTo d vx' vy' (dragTo d vx vy l) = dragTo d vx' vy' l.
Proof.
  unfold dragTo. rewrite map_map. apply map_ext. intros p.
  destruct (Id_eqb (id p) d) eqn:E; cbn [with_xy id]; rewrite E; reflexivity.
Qed.

Lemma dragTo_moveAll (d : Id) (vx vy : Z) (ms : list MouseEvent) :
  forall s, draggingPillId s = Some d ->
            dragTo d vx vy (pills (moveAll ms s)) = dragTo d vx vy (pills s).
Proof.
  induction ms as [|m ms IH]; intros s G; [reflexivity|].
  simpl. rewrite IH.
  - rewrite (handleMouseMove_pills_drag m s d G). apply dragTo_dragTo.
  - now destruct (handleMouseMove_frame m s) as (_ & _ & -> & _).
Qed.

Lemma moveAll_snoc (ms : list MouseEvent) (m : MouseEvent) (s : State) :
  moveAll (ms ++ [m]) s = handleMouseMove m (moveAll ms s).
Proof. unfold moveAll. now rewrite fold_left_app. Qed.

Lemma NoDup_nth_error_ne {A : Type} (l : list A) (j k : nat) (a b : A) :
  NoDup l -> j <> k ->
  nth_error l j = Some a -> nth_error l k = Some b -> a <> b.
Proof.
  intros Hnd Hjk Ha Hb E. subst b.
  apply Hjk. apply (proj1 (NoDup_nth_error l) Hnd).
  - apply nth_error_Some. congruence.
  - congruence.
Qed.

(** C6.  A drag starts with a press at [e0] on the [k]-th pill [p], which
    records the offset [(dx, dy)] of the pointer from [p]'s top-left
    corner.  After any moves, the last one to [m]: the offset is still the
    recorded one, the store has as many pills as before, its [k]-th pill is
    [p] at [(m.x - dx, m.y - dy)] with its identifier, size, colour and
    radius, and every other position of the store holds what it held. *)
Theorem drag_follows_pointer
        (s : State) (k : nat) (p : Pill) (e0 m : MouseEvent)
        (ms : list MouseEvent) :
  nth_error (pills s) k = Some p ->
  NoDup (map id (pills s)) ->
  let dx := clientX e0 - x p in
  let dy := clientY e0 - y p in
  exists s',
    run s (MouseDownPill k e0 :: map MouseMove (ms ++ [m])) = Some s'
    /\ draggingPillId s' = Some (id p)
    /\ dragOffset s' = mkPoint dx dy
    /\ List.length (pills s') = List.length (pills s)
    /\ nth_error (pills s') k
       = Some (mkPill (id p) (clientX m - dx) (clientY m - dy)
                      (width p) (height p) (color p) (borderRadius p))
    /\ forall j, j <> k -> nth_error (pills s') j = nth_error (pills s) j.
Proof.
  intros Hk Hnd dx dy.
  set (s0 := onMouseDownPill p e0 s).
  exists (moveAll (ms ++ [m]) s0).
  assert (G0 : draggingPillId s0 = Some (id p)) by reflexivity.
  destruct (moveAll_frame (ms ++ [m]) s0) as (_ & _ & Fg & Fo & _).
  destruct (moveAll_frame ms s0) as (_ & _ & Fg' & Fo' & _).
  assert (Hp : pills (moveAll (ms ++ [m]) s0)
               = dragTo (id p) (clientX m - dx) (clientY m - dy) (pills s)).
  { rewrite moveAll_snoc.
    rewrite (handleMouseMove_pills_drag m _ (id p)) by congruence.
    rewrite Fo'. cbn [s0 onMouseDownPill dragOffset pt_x pt_y].
    fold dx dy. fold s0. now rewrite dragTo_moveAll. }
  split; [|split; [|split; [|split; [|split]]]].
  - simpl. rewrite Hk. fold s0. apply run_moves.
  - congruence.
  - now rewrite Fo.
  - rewrite Hp. unfold dragTo. apply length_map.
  - rewrite Hp. unfold dragTo. rewrite nth_error_map, Hk. cbn [option_map].
    now rewrite Id_eqb_refl.
  - intros j Hj. rewrite Hp. unfold dragTo. rewrite nth_error_map.
    destruct (nth_error (pills s) j) as [q|] eqn:Hq; [|reflexivity].
    cbn [option_map].
    assert (Hne : id q <> id p).
    { apply (NoDup_nth_error_ne (map id (pills s)) j k); try assumption.
      - now rewrite nth_error_map, Hq.
      - now rewrite nth_error_map, Hk. }
    apply Id_eqb_neq in Hne. now rewrite Hne.
Qed.

Lemma drag_follows_pointer_witness :
  let p := mkPill (Uuid 0) 100 100 100 100 "#1F2E3D" 20 in
  let q := mkPill (Uuid 1) 300 300 50 60 "#ABCDEF" 20 in
  let s := mkState [p; q] (mkSplitLines 0 0 false) false (mkPoint 0 0)
                   None None (mkPoint 0 0) 2%N in
  exists s',
    run s [ MouseDownPill 0 (mkMouseEvent 150 140 2);
            MouseMove (mkMouseEvent 160 150 0);
            MouseMove (mkMouseEvent 250 240 0) ] = Some s'
    /\ nth_error (pills s') 0
       = Some (mkPill (Uuid 0) 200 200 100 100 "#1F2E3D" 20)
    /\ nth_error (pills s') 1 = Some q.
Proof.
  intros p q s.
  assert (Hnd : NoDup (map id (pills s))).
  { simpl. constructor; [|constructor; [intros [] | constructor]].
    intros [E|[]]. discriminate E. }
  destruct (drag_follows_pointer s 0 p (mkMouseEvent 150 140 2)
              (mkMouseEvent 250 240 0) [mkMouseEvent 160 150 0]
              eq_refl Hnd)
    as (s' & R & _ & _ & _ & H0 & Hother).
  exists s'. split; [exact R|]. split; [exact H0|].
  now rewrite (Hother 1%nat).
Defined.

(** ** Minimum size *)

Lemma splitPill_sized (sx sy : Z) (p : Pill) (n : N) :
  sized p ->
  Forall sized (newPills (snd (splitPill sx sy p (mkBuilder [] n)))).
Proof.
  intros [Hw Hh]. pattern (splitPill sx sy p (mkBuilder [] n)).
  apply splitPill_cases; intros; cbn [snd newPills app];
    repeat constructor; cbn [width height with_x with_y]; assumption.
Qed.

Lemma applySplit_sized (sx sy : Z) (l : list Pill) :
  forall n, Forall sized l -> Forall sized (newPills (applySplit l sx sy n)).
Proof.
  induction l as [|p l IH]; intros n Hl.
  - constructor.
  - inversion Hl as [|? ? Hp Hl']; subst.
    rewrite applySplit_cons. cbn [newPills].
    apply Forall_app. split; [now apply splitPill_sized | now apply IH].
Qed.

Lemma dragTo_sized (d : Id) (vx vy : Z) (l : list Pill) :
  Forall sized l -> Forall sized (dragTo d vx vy l).
Proof.
  intros Hl. unfold dragTo. apply Forall_map.
  eapply Forall_impl; [|exact Hl]. intros p Hp.
  now destruct (Id_eqb (id p) d).
Qed.

Lemma step_sized (s s' : State) (ev : Event) :
  Forall sized (pills s) -> step s ev = Some s' -> Forall sized (pills s').
Proof.
  intros Hs Hstep. destruct ev as [e|e rnd|k e|e|e|]; simpl in Hstep.
  - injection Hstep as <-.
    destruct (draggingPillId s) as [d|] eqn:G.
    + rewrite (handleMouseMove_pills_drag e s d G). now apply dragTo_sized.
    + now rewrite handleMouseMove_pills_idle.
  - injection Hstep as <-. unfold handleMouseDown.
    now destruct (_ && _).
  - destruct (nth_error (pills s) k); now injection Hstep as <-.
  - unfold handleMouseUp in Hstep.
    destruct (drawing s).
    + destruct (_ && _) eqn:Big.
      * destruct (tempPill s); [|discriminate].
        injection Hstep as <-. cbn [pills].
        apply Forall_app. split; [assumption|].
        apply andb_true_iff in Big. destruct Big as [Bw Bh].
        apply Z.geb_le in Bw, Bh.
        constructor; [|constructor].
        unfold sized, MIN_SPLIT_SIZE, MIN_DRAW_SIZE in *.
        cbn [width height]. lia.
      * now injection Hstep as <-.
    + now injection Hstep as <-.
  - injection Hstep as <-. unfold handleClick.
    destruct (_ || _); [assumption|].
    cbn [pills]. now apply applySplit_sized.
  - now injection Hstep as <-.
Qed.

(** C9.  No pill of the store is narrower or lower than
    [MIN_SPLIT_SIZE] = 20: the store starts empty, every event handler
    keeps the property, and so it holds in every state the component can
    reach.  In particular no dimension is ever negative. *)
Theorem store_pills_at_least_min_size :
  (forall s ev s',
      Forall sized (pills s) -> step s ev = Some s' ->
      Forall sized (pills s'))
  /\ (forall s, reachable s ->
                Forall (fun p => 20 <= width p /\ 20 <= height p
                                 /\ 0 <= width p /\ 0 <= height p)
                       (pills s)).
Proof.
  split.
  - intros s ev s'. apply step_sized.
  - intros s Hr.
    assert (Hs : Forall sized (pills s)).
    { induction Hr as [|s ev s' _ IH Hstep]; [constructor|].
      exact (step_sized s s' ev IH Hstep). }
    eapply Forall_impl; [|exact Hs].
    intros p [Hw Hh]. unfold MIN_SPLIT_SIZE in *. lia.
Qed.

(** ** Reachable states *)

Lemma run_reachable (evs : list Event) :
  forall s s', reachable s -> run s evs = Some s' -> reachable s'.
Proof.
  induction evs as [|ev evs IH]; intros s s' Hr Hrun; simpl in Hrun.
  - now injection Hrun as <-.
  - destruct (step s ev) as [s1|] eqn:E; [|discriminate].
    apply (IH s1); [|assumption]. now apply (reach_step s ev).
Qed.

Lemma store_pills_at_least_min_size_witness :
  exists s,
    run initialState drawTwo = Some s
    /\ Forall (fun p => 20 <= width p /\ 20 <= height p
                        /\ 0 <= width p /\ 0 <= height p) (pills s).
Proof.
  eexists. split; [reflexivity|].
  apply (proj2 store_pills_at_least_min_size).
  apply (run_reachable drawTwo initialState); [constructor | reflexivity].
Defined.

Lemma idsWf_snoc (n : N) (l : list Pill) (q : Pill) :
  idsWf n l -> id q = Uuid n -> idsWf (N.succ n) (l ++ [q]).
Proof.
  intros [Hnd Hb] Hq. split.
  - rewrite map_app. simpl. apply NoDup_app. repeat split.
    + assumption.
    + constructor; [intros [] | constructor].
    + intros i Hi [<-|[]]. revert Hi. rewrite Hq.
      apply (idsWf_fresh n); [now split | lia].
  - apply Forall_app. split.
    + eapply Forall_impl; [|exact Hb]. intros p. apply idBelow_mono. lia.
    + constructor; [|constructor]. intros k Ek. rewrite Hq in Ek.
      injection Ek as <-. lia.
Qed.

Lemma dragTo_ids (d : Id) (vx vy : Z) (l : list Pill) :
  map id (dragTo d vx vy l) = map id l.
Proof.
  unfold dragTo. rewrite map_map. apply map_ext. intros p.
  now destruct (Id_eqb (id p) d).
Qed.

Lemma dragTo_idsWf (n : N) (d : Id) (vx vy : Z) (l : list Pill) :
  idsWf n l -> idsWf n (dragTo d vx vy l).
Proof.
  intros [Hnd Hb]. split.
  - now rewrite dragTo_ids.
  - unfold dragTo. apply Forall_map.
    eapply Forall_impl; [|exact Hb]. intros p Hp.
    now destruct (Id_eqb (id p) d).
Qed.

Lemma step_stateWf (s s' : State) (ev : Event) :
  stateWf s -> step s ev = Some s' -> stateWf s'.
Proof.
  intros [Hi Hd] Hstep. destruct ev as [e|e rnd|k e|e|e|]; simpl in Hstep.
  - injection Hstep as <-. split.
    + destruct (draggingPillId s) as [d|] eqn:G.
      * rewrite (handleMouseMove_pills_drag e s d G). now apply dragTo_idsWf.
      * now rewrite handleMouseMove_pills_idle.
    + unfold handleMouseMove. cbn [drawing tempPill]. intros D.
      specialize (Hd D). destruct (tempPill s); [|contradiction].
      rewrite D. discriminate.
  - injection Hstep as <-. unfold handleMouseDown.
    destruct (_ && _); split; try assumption. discriminate.
  - destruct (nth_error (pills s) k); injection Hstep as <-;
      split; assumption.
  - unfold handleMouseUp in Hstep.
    destruct (drawing s) eqn:D.
    + destruct (_ && _).
      * destruct (tempPill s); [|discriminate].
        injection Hstep as <-. split; [|discriminate].
        cbn [pills uuidNext]. now apply idsWf_snoc.
      * injection Hstep as <-. split; [assumption | discriminate].
    + injection Hstep as <-. split; [assumption|]. cbn. congruence.
  - injection Hstep as <-. unfold handleClick.
    destruct (_ || _); [now split|]. split; [|assumption].
    cbn [pills uuidNext]. now apply applySplit_idsWf.
  - injection Hstep as <-. now split.
Qed.

Lemma reachable_stateWf (s : State) : reachable s -> stateWf s.
Proof.
  induction 1 as [|s ev s' _ IH Hstep].
  - split; [split; constructor | discriminate].
  - exact (step_stateWf s s' ev IH Hstep).
Qed.

(** No event makes a reachable state fail. *)
Lemma reachable_step_total (s : State) (ev : Event) :
  reachable s -> exists s', step s ev = Some s'.
Proof.
  intros Hr. destruct (reachable_stateWf s Hr) as [_ Hd].
  destruct ev as [e|e rnd|k e|e|e|]; simpl; try (eexists; reflexivity).
  - destruct (nth_error (pills s) k); eexists; reflexivity.
  - unfold handleMouseUp. destruct (drawing s).
    + destruct (_ && _); [|eexists; reflexivity].
      destruct (tempPill s); [eexists; reflexivity|].
      now destruct Hd.
    + eexists; reflexivity.
Qed.

(** ** Pointer down *)

(** C10.  [onMouseDownPill] does not consult the button: a press on a
    rendered pill, whatever the button, records that pill as the dragged
    one together with the pointer's offset from its corner, and leaves
    the rest of the state alone.  The container's [handleMouseDown] does
    consult it: a press with a button other than 0 returns the state
    unchanged, so an idle component stays idle, while a press with
    button 0 away from every pill starts drawing. *)
Theorem pointer_down_buttons :
  (forall s k p e,
      nth_error (pills s) k = Some p ->
      exists s',
        step s (MouseDownPill k e) = Some s'
        /\ draggingPillId s' = Some (id p)
        /\ dragOffset s' = mkPoint (clientX e - x p) (clientY e - y p)
        /\ drawing s' = drawing s /\ pills s' = pills s)
  /\ (forall s e rnd,
         button e <> 0 ->
         step s (MouseDown e rnd) = Some s
         /\ (isIdle s -> isIdle (handleMouseDown e rnd s)))
  /\ (forall s e rnd,
         button e = 0 -> clickedOnPill e (pills s) = false ->
         drawing (handleMouseDown e rnd s) = true
         /\ drawStart (handleMouseDown e rnd s)
            = mkPoint (clientX e) (clientY e)).
Proof.
  split; [|split].
  - intros s k p e Hk. eexists. simpl. rewrite Hk.
    split; [reflexivity|]. now repeat split.
  - intros s e rnd Hb.
    assert (E : handleMouseDown e rnd s = s).
    { unfold handleMouseDown. apply Z.eqb_neq in Hb.
      now rewrite Hb, andb_false_r. }
    simpl. rewrite E. now split.
  - intros s e rnd Hb Hc. unfold handleMouseDown.
    rewrite Hc, Hb. now split.
Qed.

Lemma pointer_down_buttons_witness :
  let p := mkPill (Uuid 0) 100 100 100 100 "#1F2E3D" 20 in
  let s := mkState [p] (mkSplitLines 0 0 false) false (mkPoint 0 0)
                   None None (mkPoint 0 0) 1%N in
  (exists s', step s (MouseDownPill 0 (mkMouseEvent 150 140 2)) = Some s'
              /\ draggingPillId s' = Some (Uuid 0))
  /\ step s (MouseDown (mkMouseEvent 400 400 2) zeros) = Some s
  /\ drawing (handleMouseDown (mkMouseEvent 400 400 0) zeros s) = true.
Proof.
  intros p s. split; [|split].
  - destruct (proj1 pointer_down_buttons s 0%nat p (mkMouseEvent 150 140 2)
                eq_refl) as (s' & R & G & _).
    exists s'. now split.
  - apply (proj1 (proj2 pointer_down_buttons) s (mkMouseEvent 400 400 2)
             zeros). simpl. lia.
  - apply (proj2 (proj2 pointer_down_buttons) s (mkMouseEvent 400 400 0)
             zeros); reflexivity.
Defined.

(** ** The click that follows a release *)

(** C1.  What the code does with the click a pointing device emits after
    a release.  Every pointer-up lowers both [drawing] and
    [draggingPillId], so the guard at the head of [handleClick] lets the
    click through and the split pass runs at the release point.  In the
    session [drawTwo] the release of the second draw leaves the store
    [[A; B]]; the click at the same point cuts [A], which the horizontal
    line crosses, in two.  In the session [dragOne] the pill is dropped at
    (200,200); the click at the release point cuts the dragged pill
    itself. *)
Theorem release_click_runs_split_pass :
  (forall s e s' c,
      handleMouseUp e s = Some s' ->
      pills (handleClick c s')
      = newPills (applySplit (pills s') (clientX c) (clientY c)
                             (uuidNext s')))
  /\ (exists s1 s2,
         run initialState drawTwo = Some s1
         /\ step s1 (Click (mkMouseEvent 360 150 0)) = Some s2
         /\ pills s1 = [ mkPill (Uuid 0) 100 100 100 100 "#000000" 20;
                         mkPill (Uuid 1) 300 150 60 50 "#000000" 20 ]
         /\ pills s2 = [ mkPill (Uuid 2) 100 100 100 50 "#000000" 20;
                         mkPill (Uuid 3) 100 150 100 50 "#000000" 20;
                         mkPill (Uuid 1) 300 150 60 50 "#000000" 20 ])
  /\ (exists s1 s2,
         run initialState dragOne = Some s1
         /\ step s1 (Click (mkMouseEvent 250 240 0)) = Some s2
         /\ pills s1 = [ mkPill (Uuid 0) 200 200 100 100 "#000000" 20 ]
         /\ pills s2 = [ mkPill (Uuid 1) 200 200 100 40 "#000000" 20;
                         mkPill (Uuid 2) 200 240 100 60 "#000000" 20 ]).
Proof.
  split; [|split].
  - intros s e s' c Hup.
    destruct (handleMouseUp_idle e s s' Hup) as [D G].
    now rewrite handleClick_idle.
  - eexists _, _. split; [reflexivity|]. split; [reflexivity|].
    split; reflexivity.
  - eexists _, _. split; [reflexivity|]. split; [reflexivity|].
    split; reflexivity.
Qed.

(** ** Instances of C4 and C8 *)

Lemma one_change_per_pill_witness :
  let p := mkPill (Uuid 0) 100 100 100 100 "#1F2E3D" 20 in
  splitPill 150 140 p (mkBuilder [] 1)
  = (tt, mkBuilder [ mkPill (Uuid 1) 100 100 100 40 "#1F2E3D" 20;
                     mkPill (Uuid 2) 100 140 100 60 "#1F2E3D" 20 ] 3%N)
  /\ splitPill 0 140 p (mkBuilder [] 1) = splitPill 150 140 p (mkBuilder [] 1).
Proof.
  intros p. split; [reflexivity|].
  exact (proj1 (proj1 (proj2 (one_change_per_pill 150 140 p 1)) eq_refl) 0).
Defined.

Lemma edge_does_not_split_witness :
  let p := mkPill (Uuid 0) 100 100 100 100 "#1F2E3D" 20 in
  splitPill 200 100 p (mkBuilder [] 1) = (tt, mkBuilder [p] 1%N)
  /\ verticalSplitTest 200 p = false
  /\ horizontalSplitTest 100 p = false.
Proof.
  intros p. split; [|split].
  - apply (proj2 (proj2 (edge_does_not_split 200 100 p 1))).
    + now left.
    + now right.
  - apply (proj1 (edge_does_not_split 150 200 p 1)). now right.
  - apply (proj1 (proj2 (edge_does_not_split 100 150 p 1))). now left.
Defined.

(** * Further properties of the handlers *)

(** ** [getRandomColor] *)

Lemma letterAt_hex (k : nat) :
  (k < 16)%nat ->
  exists c, String.get k letters = Some c /\ letterAt k = String c EmptyString.
Proof.
  intros Hk.
  do 16 (destruct k as [|k]; [eexists; split; reflexivity|]).
  lia.
Qed.

(** X1.  When every draw is a hexadecimal digit index (as
    [Math.floor(Math.random() * 16)] is), the colour is seven characters
    long, starts with '#', and its [k]-th digit is [letters[rnd k]]. *)
Theorem getRandomColor_format (rnd : nat -> nat) :
  (forall i, (i < 6)%nat -> (rnd i < 16)%nat) ->
  String.length (getRandomColor rnd) = 7%nat
  /\ String.get 0 (getRandomColor rnd) = Some "#"%char
  /\ forall k, (k < 6)%nat ->
               String.get (S k) (getRandomColor rnd)
               = String.get (rnd k) letters.
Proof.
  intros Hr.
  destruct (letterAt_hex (rnd 0%nat) (Hr 0%nat ltac:(lia))) as (c0 & G0 & L0).
  destruct (letterAt_hex (rnd 1%nat) (Hr 1%nat ltac:(lia))) as (c1 & G1 & L1).
  destruct (letterAt_hex (rnd 2%nat) (Hr 2%nat ltac:(lia))) as (c2 & G2 & L2).
  destruct (letterAt_hex (rnd 3%nat) (Hr 3%nat ltac:(lia))) as (c3 & G3 & L3).
  destruct (letterAt_hex (rnd 4%nat) (Hr 4%nat ltac:(lia))) as (c4 & G4 & L4).
  destruct (letterAt_hex (rnd 5%nat) (Hr 5%nat ltac:(lia))) as (c5 & G5 & L5).
  unfold getRandomColor. cbn [colorLoop].
  rewrite L0, L1, L2, L3, L4, L5. cbn [String.append].
  split; [reflexivity|]. split; [reflexivity|].
  intros k Hk.
  do 6 (destruct k as [|k]; [cbn [String.get]; congruence|]).
  lia.
Qed.

Lemma getRandomColor_format_witness :
  String.length (getRandomColor zeros) = 7%nat
  /\ String.get 0 (getRandomColor zeros) = Some "#"%char.
Proof.
  destruct (getRandomColor_format zeros) as (L & H & _).
  - intros i _. unfold zeros. lia.
  - now split.
Defined.

(** ** The crosshair *)

(** X2.  Only a pointer move and the pointer leaving the window touch the
    crosshair: a move puts it at the pointer and shows it, leaving hides
    it where it is, and no other event changes it. *)
Theorem crosshair_follows_moves_only (s s' : State) (ev : Event) :
  step s ev = Some s' ->
  splitLines s'
  = match ev with
    | MouseMove e => mkSplitLines (clientX e) (clientY e) true
    | MouseLeave =>
        mkSplitLines (sl_x (splitLines s)) (sl_y (splitLines s)) false
    | _ => splitLines s
    end.
Proof.
  intros Hstep. destruct ev as [e|e rnd|k e|e|e|]; simpl in Hstep.
  - now injection Hstep as <-.
  - injection Hstep as <-. unfold handleMouseDown. now destruct (_ && _).
  - destruct (nth_error (pills s) k); now injection Hstep as <-.
  - unfold handleMouseUp in Hstep. destruct (drawing s).
    + destruct (_ && _).
      * destruct (tempPill s); [|discriminate]. now injection Hstep as <-.
      * now injection Hstep as <-.
    + now injection Hstep as <-.
  - injection Hstep as <-. unfold handleClick. now destruct (_ || _).
  - now injection Hstep as <-.
Qed.

Lemma crosshair_follows_moves_only_witness :
  exists s',
    step (handleMouseMove (mkMouseEvent 7 9 0) initialState)
         (Click (mkMouseEvent 1 2 0)) = Some s'
    /\ splitLines s' = mkSplitLines 7 9 true.
Proof.
  eexists. split; [reflexivity|].
  exact (crosshair_follows_moves_only
           (handleMouseMove (mkMouseEvent 7 9 0) initialState) _
           (Click (mkMouseEvent 1 2 0)) eq_refl).
Defined.

(** ** Identifiers of reachable stores *)

Lemma step_uuidIds (s s' : State) (ev : Event) :
  Forall (fun p => exists k, id p = Uuid k) (pills s) ->
  step s ev = Some s' ->
  Forall (fun p => exists k, id p = Uuid k) (pills s').
Proof.
  intros Hs Hstep. destruct ev as [e|e rnd|k e|e|e|]; simpl in Hstep.
  - injection Hstep as <-.
    destruct (draggingPillId s) as [d|] eqn:G.
    + rewrite (handleMouseMove_pills_drag e s d G).
      unfold dragTo. apply Forall_map.
      eapply Forall_impl; [|exact Hs]. intros p Hp.
      now destruct (Id_eqb (id p) d).
    + now rewrite handleMouseMove_pills_idle.
  - injection Hstep as <-. unfold handleMouseDown. now destruct (_ && _).
  - destruct (nth_error (pills s) k); now injection Hstep as <-.
  - unfold handleMouseUp in Hstep. destruct (drawing s).
    + destruct (_ && _).
      * destruct (tempPill s); [|discriminate].
        injection Hstep as <-. cbn [pills].
        apply Forall_app. split; [assumption|].
        constructor; [|constructor]. now eexists.
      * now injection Hstep as <-.
    + now injection Hstep as <-.
  - injection Hstep as <-. unfold handleClick.
    destruct (_ || _); [assumption|]. cbn [pills].
    apply Forall_forall. intros q Hq.
    destruct (applySplit_ids_from (clientX e) (clientY e) (pills s)
                                  (uuidNext s)) as [_ Hin].
    destruct (Hin (id q) (in_map id _ q Hq)) as [Hold|(k & E & _)].
    + apply in_map_iff in Hold. destruct Hold as (p & E & Hp).
      rewrite Forall_forall in Hs. destruct (Hs p Hp) as (k & Ek).
      exists k. congruence.
    + now exists k.
  - now injection Hstep as <-.
Qed.

(** X3.  In every state the component reaches, the pills of the store
    have pairwise distinct identifiers, each of them one the generator
    has already handed out; the draft's identifier 'temp-pill' never
    enters the store. *)
Theorem reachable_ids_distinct (s : State) :
  reachable s ->
  NoDup (map id (pills s))
  /\ Forall (fun p => exists k, id p = Uuid k /\ (k < uuidNext s)%N)
            (pills s).
Proof.
  intros Hr.
  assert (Hu : Forall (fun p => exists k, id p = Uuid k) (pills s)).
  { induction Hr as [|s ev s' _ IH Hstep]; [constructor|].
    exact (step_uuidIds s s' ev IH Hstep). }
  destruct (reachable_stateWf s Hr) as [[Hnd Hb] _].
  split; [assumption|].
  rewrite Forall_forall in *. intros p Hp.
  destruct (Hu p Hp) as (k & Ek). exists k. split; [assumption|].
  now apply (Hb p Hp).
Qed.

Lemma reachable_ids_distinct_witness :
  exists s, run initialState dragOne = Some s
            /\ NoDup (map id (pills s)).
Proof.
  eexists. split; [reflexivity|].
  apply reachable_ids_distinct.
  apply (run_reachable dragOne initialState); [constructor | reflexivity].
Defined.

(** ** No run fails *)

Lemma run_total_from (evs : list Event) :
  forall s, reachable s -> exists s', run s evs = Some s' /\ reachable s'.
Proof.
  induction evs as [|ev evs IH]; intros s Hr.
  - exists s. now split.
  - destruct (reachable_step_total s ev Hr) as (s1 & E1).
    simpl. rewrite E1. apply IH. now apply (reach_step s ev).
Qed.

(** X4.  Whatever events arrive, in whatever order, the component never
    reads the colour of a missing draft: every run from the initial state
    ends in a state. *)
Theorem run_never_fails (evs : list Event) :
  exists s, run initialState evs = Some s.
Proof.
  destruct (run_total_from evs initialState reach_init) as (s & R & _).
  now exists s.
Qed.

(** ** What a click conserves *)

Lemma totalArea_app (l1 l2 : list Pill) :
  totalArea (l1 ++ l2) = totalArea l1 + totalArea l2.
Proof.
  induction l1 as [|p l1 IH]; [reflexivity|].
  simpl. rewrite IH. lia.
Qed.

Lemma splitPill_area (sx sy : Z) (p : Pill) (n : N) :
  totalArea (newPills (snd (splitPill sx sy p (mkBuilder [] n)))) = area p.
Proof.
  pattern (splitPill sx sy p (mkBuilder [] n)).
  apply splitPill_cases; intros; cbn; unfold area; cbn; ring.
Qed.

Lemma applySplit_area (sx sy : Z) (l : list Pill) :
  forall n, totalArea (newPills (applySplit l sx sy n)) = totalArea l.
Proof.
  induction l as [|p l IH]; intros n; [reflexivity|].
  rewrite applySplit_cons. cbn [newPills].
  rewrite totalArea_app, splitPill_area, IH. reflexivity.
Qed.

(** X5.  A click never creates or destroys surface: the areas of the
    pills in the store add up to the same total before and after
    [handleClick], whatever the state and the click point. *)
Theorem click_preserves_total_area (e : MouseEvent) (s : State) :
  totalArea (pills (handleClick e s)) = totalArea (pills s).
Proof.
  unfold handleClick. destruct (_ || _); [reflexivity|].
  cbn [pills]. apply applySplit_area.
Qed.

Lemma splitPill_count (sx sy : Z) (p : Pill) (n : N) :
  let bp := snd (splitPill sx sy p (mkBuilder [] n)) in
  (List.length (newPills bp) = 1%nat /\ nextUuid bp = n)
  \/ (List.length (newPills bp) = 2%nat /\ nextUuid bp = (n + 2)%N).
Proof.
  cbv zeta. pattern (splitPill sx sy p (mkBuilder [] n)).
  apply splitPill_cases; intros; cbn [snd newPills nextUuid];
    (left; split; [reflexivity | reflexivity])
    || (right; split; [reflexivity | lia]).
Qed.

Lemma applySplit_count (sx sy : Z) (l : list Pill) :
  forall n,
    let b := applySplit l sx sy n in
    (List.length l <= List.length (newPills b) <= 2 * List.length l)%nat
    /\ nextUuid b
       = (n + 2 * N.of_nat (List.length (newPills b) - List.length l))%N.
Proof.
  induction l as [|p l IH]; intros n; cbv zeta.
  - unfold applySplit. simpl. split; lia.
  - rewrite applySplit_cons. cbn [newPills nextUuid].
    set (bp := snd (splitPill sx sy p (mkBuilder [] n))).
    destruct (IH (nextUuid bp)) as [Hlen Hn]. cbv zeta in Hlen, Hn.
    rewrite Hn, length_app. cbn [List.length].
    set (k := List.length (newPills (applySplit l sx sy (nextUuid bp)))) in *.
    destruct (splitPill_count sx sy p n) as [[Hc Hu]|[Hc Hu]];
      fold bp in Hc, Hu; rewrite Hc, Hu; split; lia.
Qed.

(** X6.  The split pass turns a store of [k] pills into one of at least
    [k] and at most [2k] pills, and it draws exactly two identifiers for
    every pill the store gains. *)
Theorem split_pass_accounting (sx sy : Z) (l : list Pill) (n : N) :
  let b := applySplit l sx sy n in
  (List.length l <= List.length (newPills b) <= 2 * List.length l)%nat
  /\ nextUuid b
     = (n + 2 * N.of_nat (List.length (newPills b) - List.length l))%N.
Proof. apply applySplit_count. Qed.

(** X7.  No event removes a pill: after any event the store holds at
    least as many pills as before, and only a release or a click can
    make it hold more. *)
Theorem store_never_shrinks (s s' : State) (ev : Event) :
  step s ev = Some s' ->
  (List.length (pills s) <= List.length (pills s'))%nat
  /\ match ev with
     | MouseUp _ =>
         (List.length (pills s') <= S (List.length (pills s)))%nat
     | Click _ =>
         (List.length (pills s') <= 2 * List.length (pills s))%nat
     | _ => List.length (pills s') = List.length (pills s)
     end.
Proof.
  intros Hstep. destruct ev as [e|e rnd|k e|e|e|]; simpl in Hstep.
  - injection Hstep as <-.
    assert (E : List.length (pills (handleMouseMove e s))
                = List.length (pills s)).
    { destruct (draggingPillId s) as [d|] eqn:G.
      - rewrite (handleMouseMove_pills_drag e s d G). apply length_map.
      - now rewrite handleMouseMove_pills_idle. }
    rewrite E. split; [lia | reflexivity].
  - injection Hstep as <-. unfold handleMouseDown.
    destruct (_ && _); split; cbn [pills]; lia.
  - destruct (nth_error (pills s) k); injection Hstep as <-;
      split; cbn [onMouseDownPill pills]; lia.
  - unfold handleMouseUp in Hstep. destruct (drawing s).
    + destruct (_ && _).
      * destruct (tempPill s); [|discriminate].
        injection Hstep as <-. cbn [pills]. rewrite length_app.
        cbn [List.length]. split; lia.
      * injection Hstep as <-. cbn [pills]. split; lia.
    + injection Hstep as <-. cbn [pills]. split; lia.
  - injection Hstep as <-. unfold handleClick.
    destruct (_ || _); [split; lia|]. cbn [pills].
    destruct (applySplit_count (clientX e) (clientY e) (pills s)
                               (uuidNext s)) as [Hlen _].
    cbv zeta in Hlen. split; lia.
  - injection Hstep as <-. cbn [handleMouseLeave pills]. split; lia.
Qed.

Lemma store_never_shrinks_witness :
  let p := mkPill (Uuid 0) 100 100 100 100 "#1F2E3D" 20 in
  let s := mkState [p] (mkSplitLines 0 0 false) false (mkPoint 0 0)
                   None None (mkPoint 0 0) 1%N in
  exists s', step s (Click (mkMouseEvent 150 140 0)) = Some s'
             /\ (1 <= List.length (pills s') <= 2)%nat.
Proof.
  intros p s. eexists. split; [reflexivity|].
  destruct (store_never_shrinks s _ (Click (mkMouseEvent 150 140 0)) eq_refl)
    as [Hlo Hhi].
  split; [exact Hlo | exact Hhi].
Defined.

(** ** Corner radius *)

Lemma splitPill_radius (sx sy : Z) (p : Pill) (n : N) :
  borderRadius p = BORDER_RADIUS ->
  Forall (fun q => borderRadius q = BORDER_RADIUS)
         (newPills (snd (splitPill sx sy p (mkBuilder [] n)))).
Proof.
  intros Hp. pattern (splitPill sx sy p (mkBuilder [] n)).
  apply splitPill_cases; intros; cbn [snd newPills app];
    repeat constructor; assumption.
Qed.

Lemma applySplit_radius (sx sy : Z) (l : list Pill) :
  forall n,
    Forall (fun q => borderRadius q = BORDER_RADIUS) l ->
    Forall (fun q => borderRadius q = BORDER_RADIUS)
           (newPills (applySplit l sx sy n)).
Proof.
  induction l as [|p l IH]; intros n Hl; [constructor|].
  inversion Hl as [|? ? Hp Hl']; subst.
  rewrite applySplit_cons. cbn [newPills].
  apply Forall_app. split; [now apply splitPill_radius | now apply IH].
Qed.

(** X8.  Every pill of every reachable store has the one corner radius
    [BORDER_RADIUS]: draw commits and split parts are given it, nudges
    and drags carry it along. *)
Theorem reachable_border_radius (s : State) :
  reachable s ->
  Forall (fun p => borderRadius p = BORDER_RADIUS) (pills s).
Proof.
  induction 1 as [|s ev s' _ IH Hstep]; [constructor|].
  destruct ev as [e|e rnd|k e|e|e|]; simpl in Hstep.
  - injection Hstep as <-.
    destruct (draggingPillId s) as [d|] eqn:G.
    + rewrite (handleMouseMove_pills_drag e s d G).
      unfold dragTo. apply Forall_map.
      eapply Forall_impl; [|exact IH]. intros p Hp.
      now destruct (Id_eqb (id p) d).
    + now rewrite handleMouseMove_pills_idle.
  - injection Hstep as <-. unfold handleMouseDown. now destruct (_ && _).
  - destruct (nth_error (pills s) k); now injection Hstep as <-.
  - unfold handleMouseUp in Hstep. destruct (drawing s).
    + destruct (_ && _).
      * destruct (tempPill s); [|discriminate].
        injection Hstep as <-. cbn [pills].
        apply Forall_app. split; [assumption|]. now repeat constructor.
      * now injection Hstep as <-.
    + now injection Hstep as <-.
  - injection Hstep as <-. unfold handleClick.
    destruct (_ || _); [assumption|]. cbn [pills].
    now apply applySplit_radius.
  - now injection Hstep as <-.
Qed.

Lemma reachable_border_radius_witness :
  exists s, run initialState drawTwo = Some s
            /\ Forall (fun p => borderRadius p = BORDER_RADIUS) (pills s).
Proof.
  eexists. split; [reflexivity|].
  apply reachable_border_radius.
  apply (run_reachable drawTwo initialState); [constructor | reflexivity].
Defined.

(** ** Two clicks at one point *)

(** X9.  The pass cuts along one axis per click, so a second click at
    the same point finishes the cross: if the point is at least
    [MIN_SPLIT_SIZE] away from all four edges of [p], the first pass
    yields top and bottom, whose common edge now carries the horizontal
    line, and the second pass cuts each of them at [splitX], leaving the
    four quadrants in the order top-left, top-right, bottom-left,
    bottom-right. *)
Theorem second_click_completes_cross (sx sy : Z) (p : Pill) (n : N) :
  y p + 20 <= sy <= y p + height p - 20 ->
  x p + 20 <= sx <= x p + width p - 20 ->
  let b1 := applySplit [p] sx sy n in
  applySplit (newPills b1) sx sy (nextUuid b1)
  = mkBuilder
      [ mkPill (Uuid (n + 2)) (x p) (y p) (sx - x p) (sy - y p)
               (color p) BORDER_RADIUS;
        mkPill (Uuid (n + 3)) sx (y p) (width p - (sx - x p)) (sy - y p)
               (color p) BORDER_RADIUS;
        mkPill (Uuid (n + 4)) (x p) sy (sx - x p)
               (height p - (sy - y p)) (color p) BORDER_RADIUS;
        mkPill (Uuid (n + 5)) sx sy (width p - (sx - x p))
               (height p - (sy - y p)) (color p) BORDER_RADIUS ]
      (n + 6)%N.
Proof.
  intros Hy Hx. cbv zeta.
  assert (E1 : applySplit [p] sx sy n
               = mkBuilder
                   [ mkPill (Uuid n) (x p) (y p) (width p) (sy - y p)
                            (color p) BORDER_RADIUS;
                     mkPill (Uuid (N.succ n)) (x p) sy (width p)
                            (height p - (sy - y p)) (color p)
                            BORDER_RADIUS ]
                   (N.succ (N.succ n))).
  { unfold applySplit, forEach. cbn [fold_left].
    rewrite splitPill_vertical; [reflexivity | | |];
      [apply verticalSplitTest_spec | |]; unfold MIN_SPLIT_SIZE; lia. }
  rewrite E1. cbn [newPills nextUuid].
  unfold applySplit, forEach. cbn [fold_left].
  rewrite splitPill_horizontal;
    [| apply verticalSplitTest_false; cbn; lia
     | apply horizontalSplitTest_spec; cbn; lia
     | unfold MIN_SPLIT_SIZE; cbn; lia
     | unfold MIN_SPLIT_SIZE; cbn; lia ].
  cbn [snd newPills nextUuid].
  rewrite splitPill_horizontal;
    [| apply verticalSplitTest_false; cbn; lia
     | apply horizontalSplitTest_spec; cbn; lia
     | unfold MIN_SPLIT_SIZE; cbn; lia
     | unfold MIN_SPLIT_SIZE; cbn; lia ].
  cbn [snd newPills nextUuid app x y width height color].
  repeat f_equal; lia.
Qed.

Lemma second_click_completes_cross_witness :
  let p := mkPill (Uuid 0) 100 100 100 100 "#1F2E3D" 20 in
  let b1 := applySplit [p] 150 140 1 in
  List.length (newPills (applySplit (newPills b1) 150 140 (nextUuid b1)))
  = 4%nat.
Proof.
  intros p b1. unfold b1.
  rewrite (second_click_completes_cross 150 140 p 1);
    [reflexivity | cbn; lia | cbn; lia].
Defined.

(** ** Release *)

(** X10.  A release outside a draw commits nothing: the store and the
    identifier counter are as before, no gesture is in progress any
    more, and the pointer moves that follow no longer move any pill. *)
Theorem release_ends_drag (e : MouseEvent) (s : State) :
  drawing s = false ->
  exists s',
    handleMouseUp e s = Some s'
    /\ pills s' = pills s /\ uuidNext s' = uuidNext s /\ isIdle s'
    /\ forall ms, pills (moveAll ms s') = pills s.
Proof.
  intros D. unfold handleMouseUp. rewrite D. eexists.
  split; [reflexivity|]. split; [reflexivity|]. split; [reflexivity|].
  split; [now split|].
  intros ms. now rewrite moveAll_pills_idle.
Qed.

Lemma release_ends_drag_witness :
  let p := mkPill (Uuid 0) 100 100 100 100 "#1F2E3D" 20 in
  let s := mkState [p] (mkSplitLines 0 0 false) false (mkPoint 0 0)
                   None (Some (Uuid 0)) (mkPoint 50 40) 1%N in
  exists s', handleMouseUp (mkMouseEvent 150 140 0) s = Some s'
             /\ pills (moveAll [mkMouseEvent 500 500 0] s') = [p].
Proof.
  intros p s.
  destruct (release_ends_drag (mkMouseEvent 150 140 0) s eq_refl)
    as (s' & R & _ & _ & _ & Hm).
  exists s'. split; [exact R | apply Hm].
Defined.

(** ** Drag without a jump *)

Lemma drag_pills (s : State) (p : Pill) (e0 m : MouseEvent)
      (ms : list MouseEvent) :
  pills (moveAll (ms ++ [m]) (onMouseDownPill p e0 s))
  = dragTo (id p) (clientX m - (clientX e0 - x p))
           (clientY m - (clientY e0 - y p)) (pills s).
Proof.
  set (s0 := onMouseDownPill p e0 s).
  destruct (moveAll_frame ms s0) as (_ & _ & Fg & Fo & _).
  rewrite moveAll_snoc.
  rewrite (handleMouseMove_pills_drag m _ (id p)) by (now rewrite Fg).
  rewrite Fo. cbn [s0 onMouseDownPill dragOffset pt_x pt_y]. fold s0.
  now rewrite dragTo_moveAll.
Qed.

Lemma with_xy_same (p : Pill) : with_xy p (x p) (y p) = p.
Proof. now destruct p. Qed.

(** X11.  The recorded offset keeps the grip: after a press at [e0] on
    the [k]-th pill and any moves ending at [m], that pill has moved by
    exactly the pointer's displacement from [e0]; if the pointer is back
    where it was pressed, the whole store is as it was before the
    press. *)
Theorem drag_moves_by_displacement
        (s : State) (k : nat) (p : Pill) (e0 m : MouseEvent)
        (ms : list MouseEvent) :
  nth_error (pills s) k = Some p ->
  NoDup (map id (pills s)) ->
  let s' := moveAll (ms ++ [m]) (onMouseDownPill p e0 s) in
  nth_error (pills s') k
  = Some (with_xy p (x p + (clientX m - clientX e0))
                    (y p + (clientY m - clientY e0)))
  /\ (clientX m = clientX e0 -> clientY m = clientY e0 ->
      pills s' = pills s).
Proof.
  intros Hk Hnd s'. unfold s'. rewrite drag_pills. split.
  - unfold dragTo. rewrite nth_error_map, Hk. cbn [option_map].
    rewrite Id_eqb_refl. f_equal. f_equal; lia.
  - intros Ex Ey. rewrite Ex, Ey.
    replace (clientX e0 - (clientX e0 - x p)) with (x p) by lia.
    replace (clientY e0 - (clientY e0 - y p)) with (y p) by lia.
    unfold dragTo. rewrite <- (map_id (pills s)) at 2.
    apply map_ext_in. intros q Hq.
    destruct (Id_eqb (id q) (id p)) eqn:E; [|reflexivity].
    apply Id_eqb_eq in E.
    destruct (In_nth_error _ _ Hq) as (j & Hj).
    destruct (Nat.eq_dec j k) as [->|Hjk].
    + assert (q = p) by congruence. subst q. apply with_xy_same.
    + exfalso.
      apply (NoDup_nth_error_ne (map id (pills s)) j k (id q) (id p));
        try assumption.
      * now rewrite nth_error_map, Hj.
      * now rewrite nth_error_map, Hk.
Qed.

Lemma drag_moves_by_displacement_witness :
  let p := mkPill (Uuid 0) 100 100 100 100 "#1F2E3D" 20 in
  let q := mkPill (Uuid 1) 300 300 50 60 "#ABCDEF" 20 in
  let s := mkState [p; q] (mkSplitLines 0 0 false) false (mkPoint 0 0)
                   None None (mkPoint 0 0) 2%N in
  pills (moveAll ([mkMouseEvent 400 10 0] ++ [mkMouseEvent 150 140 0])
                 (onMouseDownPill p (mkMouseEvent 150 140 0) s))
  = [p; q].
Proof.
  intros p q s.
  assert (Hnd : NoDup (map id (pills s))).
  { simpl. constructor; [|constructor; [intros [] | constructor]].
    intros [E|[]]. discriminate E. }
  exact (proj2 (drag_moves_by_displacement s 0 p (mkMouseEvent 150 140 0)
                  (mkMouseEvent 150 140 0) [mkMouseEvent 400 10 0]
                  eq_refl Hnd) eq_refl eq_refl).
Defined.

(** ** Press on the container *)

Lemma clickedOnPill_spec (e : MouseEvent) (l : list Pill) :
  clickedOnPill e l = true
  <-> exists p, In p l
                /\ x p <= clientX e <= x p + width p
                /\ y p <= clientY e <= y p + height p.
Proof.
  unfold clickedOnPill. rewrite existsb_exists.
  split; intros (p & Hp & H); exists p; (split; [assumption|]).
  - rewrite !andb_true_iff, !Z.geb_le, !Z.leb_le in H. lia.
  - rewrite !andb_true_iff, !Z.geb_le, !Z.leb_le. lia.
Qed.

(** X12.  The container's press handler tests the pointer against the
    bounding box of every pill, edges included.  A press inside or on the
    edge of some pill's box changes nothing, whatever the button; a
    primary-button press outside every box starts a draw: the press point
    becomes the anchor and the draft is the empty rectangle there, with
    the identifier 'temp-pill' and a new colour, and nothing else
    changes. *)
Theorem press_on_container (s : State) (e : MouseEvent) (rnd : nat -> nat) :
  ((exists p, In p (pills s)
              /\ x p <= clientX e <= x p + width p
              /\ y p <= clientY e <= y p + height p) ->
   handleMouseDown e rnd s = s)
  /\ (button e = 0 ->
      (forall p, In p (pills s) ->
                 ~ (x p <= clientX e <= x p + width p
                    /\ y p <= clientY e <= y p + height p)) ->
      handleMouseDown e rnd s
      = mkState (pills s) (splitLines s) true
                (mkPoint (clientX e) (clientY e))
                (Some (mkPill TempPillId (clientX e) (clientY e) 0 0
                              (getRandomColor rnd) BORDER_RADIUS))
                (draggingPillId s) (dragOffset s) (uuidNext s)).
Proof.
  split.
  - intros Hin. apply clickedOnPill_spec in Hin.
    unfold handleMouseDown. now rewrite Hin.
  - intros Hb Hout.
    assert (C : clickedOnPill e (pills s) = false).
    { destruct (clickedOnPill e (pills s)) eqn:C; [|reflexivity].
      apply clickedOnPill_spec in C. destruct C as (p & Hp & Hbox).
      now destruct (Hout p Hp). }
    unfold handleMouseDown. now rewrite C, Hb.
Qed.

Lemma press_on_container_witness :
  let p := mkPill (Uuid 0) 100 100 100 100 "#1F2E3D" 20 in
  let s := mkState [p] (mkSplitLines 0 0 false) false (mkPoint 0 0)
                   None None (mkPoint 0 0) 1%N in
  handleMouseDown (mkMouseEvent 200 200 0) zeros s = s
  /\ drawing (handleMouseDown (mkMouseEvent 201 200 0) zeros s) = true.
Proof.
  intros p s. split.
  - apply (proj1 (press_on_container s (mkMouseEvent 200 200 0) zeros)).
    exists p. split; [now left | cbn; lia].
  - rewrite (proj2 (press_on_container s (mkMouseEvent 201 200 0) zeros));
      [reflexivity | reflexivity |].
    intros q [<-|[]]. cbn. lia.
Defined.

(** ** The draft *)

Lemma handleMouseMove_draft_attrs (e : MouseEvent) (s : State) (t : Pill) :
  tempPill s = Some t ->
  exists t', tempPill (handleMouseMove e s) = Some t'
             /\ id t' = id t /\ color t' = color t
             /\ borderRadius t' = borderRadius t.
Proof.
  intros T. unfold handleMouseMove. rewrite T. cbn [tempPill].
  destruct (drawing s); eexists; (split; [reflexivity|]); now repeat split.
Qed.

Lemma moveAll_draft_attrs (ms : list MouseEvent) :
  forall s t, tempPill s = Some t ->
              exists t', tempPill (moveAll ms s) = Some t'
                         /\ id t' = id t /\ color t' = color t
                         /\ borderRadius t' = borderRadius t.
Proof.
  induction ms as [|m ms IH]; intros s t T.
  - exists t. now repeat split.
  - simpl.
    destruct (handleMouseMove_draft_attrs m s t T) as (t1 & T1 & I1 & C1 & R1).
    destruct (IH _ _ T1) as (t2 & T2 & I2 & C2 & R2).
    exists t2. split; [assumption|]. repeat split; congruence.
Qed.

(** X13.  While drawing, the draft is the rectangle spanned by the anchor
    and the pointer: after a press at [a] that starts a draw and any
    moves ending at [m], the draft sits at the minima of the coordinates
    with the absolute differences as its extents, which are never
    negative; both [a] and [m] lie on its border; it keeps the identifier
    'temp-pill' and the colour chosen at the press; and the store has
    not changed unless a drag was also in progress. *)
Theorem draft_tracks_pointer
        (s : State) (a m : MouseEvent) (rnd : nat -> nat)
        (ms : list MouseEvent) :
  button a = 0 -> clickedOnPill a (pills s) = false ->
  let s' := moveAll (ms ++ [m]) (handleMouseDown a rnd s) in
  let fx := Z.min (clientX m) (clientX a) in
  let fy := Z.min (clientY m) (clientY a) in
  let w := Z.abs (clientX m - clientX a) in
  let h := Z.abs (clientY m - clientY a) in
  tempPill s'
  = Some (mkPill TempPillId fx fy w h (getRandomColor rnd) BORDER_RADIUS)
  /\ 0 <= w /\ 0 <= h
  /\ (clientX a = fx \/ clientX a = fx + w)
  /\ (clientX m = fx \/ clientX m = fx + w)
  /\ (clientY a = fy \/ clientY a = fy + h)
  /\ (clientY m = fy \/ clientY m = fy + h)
  /\ (draggingPillId s = None -> pills s' = pills s).
Proof.
  intros B C s' fx fy w h.
  set (s0 := handleMouseDown a rnd s).
  assert (E0 : s0 = mkState (pills s) (splitLines s) true
                            (mkPoint (clientX a) (clientY a))
                            (Some (mkPill TempPillId (clientX a) (clientY a)
                                          0 0 (getRandomColor rnd)
                                          BORDER_RADIUS))
                            (draggingPillId s) (dragOffset s) (uuidNext s)).
  { unfold s0, handleMouseDown. now rewrite C, B. }
  destruct (moveAll_frame ms s0) as (Fd & Fs & _).
  destruct (moveAll_draft_attrs ms s0 _ (f_equal tempPill E0))
    as (t & Tt & It & Ct & Rt).
  set (sd := moveAll ms s0) in *.
  rewrite E0 in Fd, Fs.
  cbn [drawing drawStart id color borderRadius] in Fd, Fs, It, Ct, Rt.
  split; [|unfold fx, fy, w, h; repeat split; try lia].
  - unfold s'. fold s0. rewrite moveAll_snoc. fold sd.
    unfold handleMouseMove. cbn [tempPill].
    rewrite Tt, Fd, Fs, It, Ct, Rt. reflexivity.
  - intros G. unfold s'. fold s0.
    rewrite moveAll_pills_idle; rewrite E0; [reflexivity | exact G].
Qed.

Lemma draft_tracks_pointer_witness :
  tempPill (moveAll ([] ++ [mkMouseEvent 45 60 0])
                    (handleMouseDown (mkMouseEvent 100 10 0) zeros
                                     initialState))
  = Some (mkPill TempPillId 45 10 55 50 "#000000" 20).
Proof.
  exact (proj1 (draft_tracks_pointer initialState (mkMouseEvent 100 10 0)
                  (mkMouseEvent 45 60 0) zeros [] eq_refl eq_refl)).
Defined.

(** X14.  A draw does not depend on the direction of the gesture:
    pressing at [a] and releasing at [e] leaves the same store as
    pressing at [e] and releasing at [a]. *)
Theorem draw_direction_irrelevant
        (s : State) (a e : MouseEvent) (rnd : nat -> nat) :
  button a = 0 -> button e = 0 ->
  clickedOnPill a (pills s) = false -> clickedOnPill e (pills s) = false ->
  option_map pills (run s [MouseDown a rnd; MouseUp e])
  = option_map pills (run s [MouseDown e rnd; MouseUp a]).
Proof.
  intros Ba Be Ca Ce. cbn [run step].
  unfold handleMouseDown. rewrite Ca, Ce, Ba, Be. cbn [negb andb Z.eqb].
  unfold handleMouseUp.
  cbn [drawing drawStart pt_x pt_y tempPill pills uuidNext color].
  rewrite (Z.min_comm (clientX a) (clientX e)).
  rewrite (Z.min_comm (clientY a) (clientY e)).
  replace (Z.abs (clientX a - clientX e))
    with (Z.abs (clientX e - clientX a)) by lia.
  replace (Z.abs (clientY a - clientY e))
    with (Z.abs (clientY e - clientY a)) by lia.
  destruct (_ && _); reflexivity.
Qed.

Lemma draw_direction_irrelevant_witness :
  option_map pills
    (run initialState [ MouseDown (mkMouseEvent 360 150 0) zeros;
                        MouseUp (mkMouseEvent 300 200 0) ])
  = Some [ mkPill (Uuid 0) 300 150 60 50 "#000000" 20 ].
Proof.
  rewrite (draw_direction_irrelevant initialState (mkMouseEvent 360 150 0)
             (mkMouseEvent 300 200 0) zeros eq_refl eq_refl eq_refl eq_refl).
  reflexivity.
Defined.

(** ** Pills too small to split *)

(** X15.  A pill lower than twice [MIN_SPLIT_SIZE] is never cut into top
    and bottom, and one narrower than that is never cut into left and
    right; a pill smaller than 40 in both dimensions therefore survives
    every click as one pill with its identifier, size and colour, at
    most moved by 10 along one axis, and no identifier is drawn for
    it. *)
Theorem small_pill_never_splits (sx sy : Z) (p : Pill) (n : N) :
  width p < 40 -> height p < 40 ->
  exists q,
    splitPill sx sy p (mkBuilder [] n) = (tt, mkBuilder [q] n)
    /\ id q = id p /\ width q = width p /\ height q = height p
    /\ color q = color p
    /\ ((x q = x p /\ Z.abs (y q - y p) <= 10)
        \/ (y q = y p /\ Z.abs (x q - x p) <= 10)).
Proof.
  intros Hw Hh. pattern (splitPill sx sy p (mkBuilder [] n)).
  apply splitPill_cases; intros;
    try (match goal with
         | V : verticalSplitTest _ _ = true |- _ =>
             apply verticalSplitTest_spec in V
         end);
    try (match goal with
         | H : horizontalSplitTest _ _ = true |- _ =>
             apply horizontalSplitTest_spec in H
         end);
    unfold MIN_SPLIT_SIZE in *; try lia;
    eexists; (split; [reflexivity|]); cbn;
    repeat split; try reflexivity; (left; split; lia) || (right; split; lia).
Qed.

Lemma small_pill_never_splits_witness :
  let p := mkPill (Uuid 0) 100 100 39 39 "#1F2E3D" 20 in
  exists q, splitPill 120 120 p (mkBuilder [] 1) = (tt, mkBuilder [q] 1%N)
            /\ width q = 39 /\ height q = 39.
Proof.
  intros p.
  destruct (small_pill_never_splits 120 120 p 1) as (q & E & _ & W & H & _).
  - cbn; lia.
  - cbn; lia.
  - exists q. split; [exact E|]. split; [exact W | exact H].
Defined.

(** ** The pass, pill by pill *)

(** X16.  The pass treats the store pill by pill and in order: the result
    for [l1 ++ l2] is the result for [l1] followed by the result for
    [l2], the latter drawing its identifiers where the former stopped. *)
Theorem split_pass_piecewise (sx sy : Z) (l1 l2 : list Pill) (n : N) :
  let b1 := applySplit l1 sx sy n in
  let b2 := applySplit l2 sx sy (nextUuid b1) in
  applySplit (l1 ++ l2) sx sy n
  = mkBuilder (newPills b1 ++ newPills b2) (nextUuid b2).
Proof.
  intros b1 b2. unfold applySplit at 1. rewrite forEach_app.
  fold (applySplit l1 sx sy n). fold b1.
  now rewrite forEach_frame.
Qed.

(** ** Clicks during a gesture *)

(** X17.  While a gesture is in progress a click does nothing at all:
    after a press on a pill, or a press that starts a draw, and any
    number of moves, [handleClick] returns the state it was given. *)
Theorem click_ignored_during_gesture :
  (forall s p e0 ms c,
      let sd := moveAll ms (onMouseDownPill p e0 s) in
      handleClick c sd = sd)
  /\ (forall s a rnd ms c,
         button a = 0 -> clickedOnPill a (pills s) = false ->
         let sd := moveAll ms (handleMouseDown a rnd s) in
         handleClick c sd = sd).
Proof.
  split.
  - intros s p e0 ms c sd. apply handleClick_busy. right.
    destruct (moveAll_frame ms (onMouseDownPill p e0 s)) as (_ & _ & G & _).
    unfold sd. rewrite G. discriminate.
  - intros s a rnd ms c B C sd. apply handleClick_busy. left.
    destruct (moveAll_frame ms (handleMouseDown a rnd s)) as (D & _).
    unfold sd. rewrite D. unfold handleMouseDown. now rewrite C, B.
Qed.

Lemma click_ignored_during_gesture_witness :
  let p := mkPill (Uuid 0) 100 100 100 100 "#1F2E3D" 20 in
  let s := mkState [p] (mkSplitLines 0 0 false) false (mkPoint 0 0)
                   None None (mkPoint 0 0) 1%N in
  pills (handleClick (mkMouseEvent 150 140 0)
           (moveAll [] (handleMouseDown (mkMouseEvent 300 300 0) zeros s)))
  = [p].
Proof.
  intros p s.
  now rewrite (proj2 click_ignored_during_gesture s (mkMouseEvent 300 300 0)
                 zeros [] (mkMouseEvent 150 140 0) eq_refl eq_refl).
Defined.

(** ** Colours *)

Lemma splitPill_colors (sx sy : Z) (p : Pill) (n : N) (c : string) :
  In c (map color (newPills (snd (splitPill sx sy p (mkBuilder [] n)))))
  <-> c = color p.
Proof.
  pattern (splitPill sx sy p (mkBuilder [] n)).
  apply splitPill_cases; intros; cbn; intuition congruence.
Qed.

(** X18.  A click neither invents nor loses a colour: the colours found
    in the store after the pass are exactly those found before it. *)
Theorem split_pass_keeps_colours (sx sy : Z) (l : list Pill) (n : N)
        (c : string) :
  In c (map color (newPills (applySplit l sx sy n)))
  <-> In c (map color l).
Proof.
  revert n. induction l as [|p l IH]; intros n.
  - reflexivity.
  - rewrite applySplit_cons. cbn [newPills].
    rewrite map_app, in_app_iff, splitPill_colors, IH. cbn [map In].
    intuition congruence.
Qed.

(** ** Retired identifiers *)

Lemma step_new_ids (s s' : State) (ev : Event) :
  step s ev = Some s' ->
  (uuidNext s <= uuidNext s')%N
  /\ forall i, In i (map id (pills s')) ->
               In i (map id (pills s))
               \/ exists k, i = Uuid k /\ (uuidNext s <= k)%N.
Proof.
  intros Hstep. destruct ev as [e|e rnd|k e|e|e|]; simpl in Hstep.
  - injection Hstep as <-. split; [cbn; lia|]. intros i Hi. left.
    destruct (draggingPillId s) as [d|] eqn:G.
    + rewrite (handleMouseMove_pills_drag e s d G), dragTo_ids in Hi.
      assumption.
    + now rewrite handleMouseMove_pills_idle in Hi.
  - injection Hstep as <-. unfold handleMouseDown.
    destruct (_ && _); (split; [cbn; lia | intros i Hi; now left]).
  - destruct (nth_error (pills s) k); injection Hstep as <-;
      (split; [cbn; lia | intros i Hi; now left]).
  - unfold handleMouseUp in Hstep. destruct (drawing s).
    + destruct (_ && _).
      * destruct (tempPill s); [|discriminate].
        injection Hstep as <-. cbn [pills uuidNext]. split; [lia|].
        intros i. rewrite map_app, in_app_iff.
        intros [Hi|[<-|[]]]; [now left|].
        right. eexists. split; [reflexivity | lia].
      * injection Hstep as <-.
        split; [cbn; lia | intros i Hi; now left].
    + injection Hstep as <-. split; [cbn; lia | intros i Hi; now left].
  - injection Hstep as <-. unfold handleClick.
    destruct (_ || _); [split; [lia | intros i Hi; now left]|].
    cbn [pills uuidNext].
    destruct (applySplit_ids_from (clientX e) (clientY e) (pills s)
                                  (uuidNext s)) as [Hle Hin].
    split; [exact Hle|]. intros i Hi.
    destruct (Hin i Hi) as [Hold|(k & E & Hk)]; [now left|].
    right. exists k. split; [assumption | lia].
  - injection Hstep as <-. split; [cbn; lia | intros i Hi; now left].
Qed.

(** X19.  An identifier that has left the store never comes back: if the
    generator has already handed out [Uuid k] and no pill of the store
    carries it, then no pill carries it after any further run of
    events.  In particular the two parts of a split never take up the
    identifier of the pill they replace. *)
Theorem retired_id_never_returns (evs : list Event) :
  forall (s s' : State) (k : N),
    run s evs = Some s' ->
    (k < uuidNext s)%N ->
    ~ In (Uuid k) (map id (pills s)) ->
    ~ In (Uuid k) (map id (pills s')).
Proof.
  induction evs as [|ev evs IH]; intros s s' k Hrun Hk Hout; simpl in Hrun.
  - now injection Hrun as <-.
  - destruct (step s ev) as [s1|] eqn:E; [|discriminate].
    destruct (step_new_ids s s1 ev E) as [Hle Hnew].
    apply (IH s1 s' k Hrun); [lia|].
    intros Hin. destruct (Hnew _ Hin) as [Hold|(j & Ej & Hj)].
    + contradiction.
    + injection Ej as <-. lia.
Qed.

Lemma retired_id_never_returns_witness :
  let p := mkPill (Uuid 0) 100 100 100 100 "#1F2E3D" 20 in
  let s := mkState [p] (mkSplitLines 0 0 false) false (mkPoint 0 0)
                   None None (mkPoint 0 0) 1%N in
  exists s1 s2,
    step s (Click (mkMouseEvent 150 140 0)) = Some s1
    /\ run s1 [ Click (mkMouseEvent 150 140 0);
                Click (mkMouseEvent 120 120 0) ] = Some s2
    /\ ~ In (Uuid 0) (map id (pills s2)).
Proof.
  intros p s. eexists _, _. split; [reflexivity|]. split; [reflexivity|].
  eapply (retired_id_never_returns
            [ Click (mkMouseEvent 150 140 0); Click (mkMouseEvent 120 120 0) ]
            (handleClick (mkMouseEvent 150 140 0) s)).
  - reflexivity.
  - cbn. lia.
  - cbn. intros [E|[E|[]]]; discriminate E.
Defined.
